(** * StaticTokens: the static provisioning token resource and its marshaler

    A shallow embedding of [api/types/statictokens.go]: the resource
    [StaticTokensV2] with its accessors and defaulting, the schema assembler
    [GetStaticTokensSchema], the default marshaler
    [teleportStaticTokensMarshaler] ([Unmarshal], [Marshal]) and the
    process-wide marshaler registry.

    Conventions.
    - A Go result pair [(value, error)] is a [Result]: [Ok v] is [(v, nil)],
      [Err e] is [(nil, e)].
    - A method with a pointer receiver is a function from the receiver's
      state to its new state; a function that returns a pointer to a struct
      it has just built returns the struct. Where the pointer itself matters
      ([Marshal], which must not write through its argument) the structs live
      in a heap.
    - [int64] resource identifiers are integers [Z]: the code only stores,
      compares and copies them.
    - [time.Time] is the number of nanoseconds since the zero instant, so
      [IsZero t] is [t = 0].
    - Types, constants and routines of other files of the package are either
      parameters (type classes) or definitions modelled from the
      specification, and say so. The conversions between [ProvisionToken] and
      [ProvisionTokenV1] behind [GetStaticTokens] and [SetStaticTokens], the
      diagnostic [String] and the deprecated [SetTTL] are left out. *)

From Stdlib Require Import ZArith Ascii String List Lia.
From Stdlib Require Import DecimalString DecimalZ.
From stdpp Require Import base option strings list gmap.

Local Open Scope string_scope.
Local Open Scope Z_scope.

Definition bytes := list Byte.byte.

(** ** Formatting: [fmt.Sprintf]

    [Sprintf] follows [doPrintf] of Go's [fmt]: text is copied up to a
    percent sign; after it come flags, an argument index, a width, a
    precision (with its own index) and the verb, which is one rune. A verb
    with no operand left prints [%!verb(MISSING)], a format that ends inside
    a directive [%!(NOVERB)], a bad index [%!verb(BADINDEX)], a [*] with no
    integer operand [%!(BADWIDTH)] or [%!(BADPREC)], and operands left over
    are reported after the text as [%!(EXTRA type=value, ...)].

    An operand is a string, or a value of another, non-integer type given by
    the name of its dynamic type: the file prints such a value with [%T]
    only. What is modelled of printing an operand is the plain directive (no
    flag, width or precision) with [%v] and [%s] on a string, [%T], and a
    verb that strings do not have. How Go renders an operand under flags, a
    width or a precision, a string under [%q], [%x] and [%X], and the value
    of a non-string operand, is not modelled: such a rendering prints as
    [notModelled]. Formats with no operand left are modelled in full. *)

Module fmt.

Inductive operand :=
| str (s : string)
| val (typeName : string).

(** A rendering that is not modelled. *)
Definition notModelled : string := "?".

Definition type (a : operand) : string :=
  match a with
  | str _ => "string"
  | val typeName => typeName
  end.

Definition text (a : operand) : string :=
  match a with
  | str s => s
  | val _ => notModelled
  end.

Fixpoint extra (args : list operand) : string :=
  match args with
  | [] => ""
  | [a] => type a +:+ "=" +:+ text a
  | a :: rest => type a +:+ "=" +:+ text a +:+ ", " +:+ extra rest
  end.

(** The byte [c] lies in [lo .. hi]. *)
Definition between (lo hi : N) (c : ascii) : bool :=
  ((lo <=? N_of_ascii c) && (N_of_ascii c <=? hi))%N.

(** [utf8.DecodeRuneInString] on the bytes [c :: rest], then [writeRune]:
    the bytes written for the rune, and what follows it. A rune that is well
    encoded is written back as it was; anything else counts for one byte and
    is written as the replacement character. *)
Definition runeError : string :=
  String (ascii_of_N 239) (String (ascii_of_N 191) (String (ascii_of_N 189) "")).

Definition decodeRune (c : ascii) (rest : string) : string * string :=
  let n := N_of_ascii c in
  let cont := between 128 191 in
  if (n <? 128)%N then (String c "", rest)
  else if between 194 223 c then
    match rest with
    | String c1 r1 =>
        if cont c1 then (String c (String c1 ""), r1) else (runeError, rest)
    | _ => (runeError, rest)
    end
  else if between 224 239 c then
    match rest with
    | String c1 (String c2 r2) =>
        let second := if (n =? 224)%N then between 160 191 c1
                      else if (n =? 237)%N then between 128 159 c1
                      else cont c1 in
        if second && cont c2
        then (String c (String c1 (String c2 "")), r2)
        else (runeError, rest)
    | _ => (runeError, rest)
    end
  else if between 240 244 c then
    match rest with
    | String c1 (String c2 (String c3 r3)) =>
        let second := if (n =? 240)%N then between 144 191 c1
                      else if (n =? 244)%N then between 128 143 c1
                      else cont c1 in
        if second && cont c2 && cont c3
        then (String c (String c1 (String c2 (String c3 ""))), r3)
        else (runeError, rest)
    | _ => (runeError, rest)
    end
  else (runeError, rest).

(** The flags [#], [0], [+], [-] and space are skipped; [true] if there was
    one. *)
Definition isFlag (c : ascii) : bool :=
  Ascii.eqb c "#" || Ascii.eqb c "0" || Ascii.eqb c "+" ||
  Ascii.eqb c "-" || Ascii.eqb c " ".

Fixpoint skipFlags (seen : bool) (s : string) : bool * string :=
  match s with
  | String c rest => if isFlag c then skipFlags true rest else (seen, s)
  | EmptyString => (seen, s)
  end.

(** [parsenum]: the decimal number [s] starts with, whether there was a
    digit, and what follows. A number that grows past a million is given up
    and takes the rest of [s] with it. *)
Fixpoint parsenumFrom (num : N) (isnum : bool) (s : string) : N * bool * string :=
  match s with
  | String c rest =>
      if between 48 57 c then
        if (1000000 <? num)%N then (0%N, false, "")
        else parsenumFrom (num * 10 + (N_of_ascii c - 48))%N true rest
      else (num, isnum, s)
  | EmptyString => (num, isnum, s)
  end.

Definition parsenum (s : string) : N * bool * string :=
  parsenumFrom 0%N false s.

(** The text up to the first [']'] and the text after it. *)
Fixpoint untilBracket (s : string) : option (string * string) :=
  match s with
  | EmptyString => None
  | String c rest =>
      if Ascii.eqb c "]" then Some ("", rest)
      else match untilBracket rest with
           | Some (inside, after) => Some (String c inside, after)
           | None => None
           end
  end.

(** [parseArgNumber] on [[ ...], the bracket already read: the index
    (counted from zero), what follows the index, and whether it was well
    formed. An index with no closing bracket takes the opening bracket
    only. *)
Definition parseArgNumber (afterBracket : string) : Z * string * bool :=
  if (String.length afterBracket <? 2)%nat then (0, afterBracket, false)
  else
    match untilBracket afterBracket with
    | None => (0, afterBracket, false)
    | Some (inside, after) =>
        let '(width, ok, leftover) := parsenum inside in
        if ok && String.eqb leftover "" then (Z.of_N width - 1, after, true)
        else (0, after, false)
    end.

(** Where the scan of a directive stands: the operand to print next, whether
    the index seen so far is usable, whether an index was used at all (then
    left-over operands are not reported), and whether the last item read was
    an index. *)
Record scan := mkScan {
  argNum : nat;
  goodArgNum : bool;
  reordered : bool;
  afterIndex : bool
}.

(** [argNumber]: an explicit argument index, if one comes next. *)
Definition argNumber (numArgs : nat) (st : scan) (s : string) : scan * string :=
  match s with
  | String "[" afterBracket =>
      let '(index, rest, ok) := parseArgNumber afterBracket in
      if ok && (0 <=? index) && (index <? Z.of_nat numArgs)
      then (mkScan (Z.to_nat index) (goodArgNum st) true true, rest)
      else (mkScan (argNum st) false true ok, rest)
  | _ => (mkScan (argNum st) (goodArgNum st) (reordered st) false, s)
  end.

(** A width or precision given as [*]: no operand is an integer here, so
    the operand, if there is one, is used up and the marker [bad] is
    written. *)
Definition star (numArgs : nat) (bad : string) (st : scan) : scan * string :=
  (mkScan (if (argNum st <? numArgs)%nat then S (argNum st) else argNum st)
          (goodArgNum st) (reordered st) false, bad).

(** [printArg] for the operand [a] under the verb [verb]; [plain] says that
    the directive has no flag, width or precision. *)
Definition printArg (a : operand) (plain : bool) (verb : string) : string :=
  if negb plain then notModelled
  else if String.eqb verb "T" then type a
  else
    match a with
    | str s =>
        if String.eqb verb "v" || String.eqb verb "s" then s
        else if String.eqb verb "x" || String.eqb verb "X" || String.eqb verb "q"
        then notModelled
        else "%!" +:+ verb +:+ "(string=" +:+ s +:+ ")"
    | val _ => notModelled
    end.

(** One directive, the percent sign already read: what it writes, what
    follows it, the operand to print next and whether an index has been
    used. The format ends after [%!(NOVERB)]. *)
Definition directive (args : list operand) (next : nat) (wasReordered : bool)
    (s : string) : string * string * nat * bool :=
  let numArgs := length args in
  let '(flagged, s) := skipFlags false s in
  let fast :=
    match s, args !! next with
    | String c rest, Some a =>
        if between 97 122 c
        then Some (printArg a (negb flagged) (String c ""), rest)
        else None
    | _, _ => None
    end in
  match fast with
  | Some (out, rest) => (out, rest, S next, wasReordered)
  | None =>
      let st := mkScan next true wasReordered false in
      let '(st, s) := argNumber numArgs st s in
      (* width *)
      let '(st, s, out1, widPresent) :=
        match s with
        | String "*" rest =>
            let '(st, bad) := star numArgs "%!(BADWIDTH)" st in
            (st, rest, bad, false)
        | _ =>
            let '(_, widPresent, rest) := parsenum s in
            (mkScan (argNum st)
                    (goodArgNum st && negb (afterIndex st && widPresent))
                    (reordered st) (afterIndex st),
             rest, "", widPresent)
        end in
      (* precision *)
      let '(st, s, out2, precPresent) :=
        match s with
        | String "." rest =>
            let st := mkScan (argNum st)
                        (goodArgNum st && negb (afterIndex st))
                        (reordered st) (afterIndex st) in
            let '(st, rest) := argNumber numArgs st rest in
            match rest with
            | String "*" rest' =>
                let '(st, bad) := star numArgs "%!(BADPREC)" st in
                (st, rest', bad, false)
            | _ =>
                let '(_, _, rest') := parsenum rest in
                (st, rest', "", true)
            end
        | _ => (st, s, "", false)
        end in
      let '(st, s) :=
        if afterIndex st then (st, s) else argNumber numArgs st s in
      let out := out1 +:+ out2 in
      match s with
      | EmptyString => (out +:+ "%!(NOVERB)", "", argNum st, reordered st)
      | String c rest =>
          let '(verb, rest) := decodeRune c rest in
          if String.eqb verb "%" then
            (out +:+ "%", rest, argNum st, reordered st)
          else if negb (goodArgNum st) then
            (out +:+ "%!" +:+ verb +:+ "(BADINDEX)", rest, argNum st, reordered st)
          else
            match args !! argNum st with
            | None =>
                (out +:+ "%!" +:+ verb +:+ "(MISSING)", rest, argNum st,
                 reordered st)
            | Some a =>
                (out +:+
                 printArg a (negb (flagged || widPresent || precPresent)) verb,
                 rest, S (argNum st), reordered st)
            end
      end
  end.

(** The loop of [doPrintf]; each turn reads at least one byte of the format,
    so as many turns as the format has bytes are enough. *)
Fixpoint doPrintf (fuel : nat) (args : list operand) (next : nat)
    (wasReordered : bool) (format : string) {struct fuel} : string :=
  match format with
  | EmptyString =>
      if negb wasReordered && (next <? length args)%nat
      then "%!(EXTRA " +:+ extra (drop next args) +:+ ")"
      else ""
  | String c rest =>
      match fuel with
      | O => ""
      | S fuel =>
          if Ascii.eqb c "%" then
            let '(out, rest, next, wasReordered) :=
              directive args next wasReordered rest in
            out +:+ doPrintf fuel args next wasReordered rest
          else String c (doPrintf fuel args next wasReordered rest)
      end
  end.

Definition Sprintf (format : string) (args : list operand) : string :=
  doPrintf (String.length format) args 0 false format.

End fmt.

(** ** Errors: the part of [github.com/gravitational/trace] the file uses *)

Module trace.

(** The class an error carries; callers branch on it, not on the message. *)
Inductive Kind :=
| BadParameterKind
| OtherKind (name : string)
| NoKind.

(** An error value: either a plain [error] of some other package (a decoder's
    syntax error, say) or a trace error with its class and user message. *)
Inductive error :=
| Plain (message : string)
| TraceErr (kind : Kind) (message : string).

(** [err.Error()] *)
Definition Error (err : error) : string :=
  match err with
  | Plain m => m
  | TraceErr _ m => m
  end.

(** [trace.BadParameter(message, args...)]: the message is formatted. *)
Definition BadParameter (message : string) (args : list fmt.operand) : error :=
  TraceErr BadParameterKind (fmt.Sprintf message args).

(** [trace.Wrap(err)] for a non-nil [err]: a trace error is returned as it is
    (only its call-site trace grows), any other error is wrapped without a
    class of its own. *)
Definition Wrap (err : error) : error :=
  match err with
  | Plain m => TraceErr NoKind m
  | TraceErr _ _ => err
  end.

(** [trace.IsBadParameter(err)] *)
Definition IsBadParameter (err : error) : bool :=
  match err with
  | TraceErr BadParameterKind _ => true
  | _ => false
  end.

End trace.

Inductive Result (A : Type) :=
| Ok (value : A)
| Err (err : trace.error).
Arguments Ok {A} value.
Arguments Err {A} err.

(** Go source text is written here with ['] where the source has a double
    quote; [dq] puts the double quotes back. *)
Definition dquote : ascii := ascii_of_nat 34.

Fixpoint dq (s : string) : string :=
  match s with
  | EmptyString => EmptyString
  | String "'" rest => String dquote (dq rest)
  | String c rest => String c (dq rest)
  end.

(** ** Schema assembler *)

(** [StaticTokensSpecSchemaTemplate] is a template for StaticTokens schema. *)
Definition StaticTokensSpecSchemaTemplate : string := dq
"{
	'type': 'object',
	'additionalProperties': false,
	'properties': {
		'static_tokens': {
			'type': 'array',
			'items': {
				'type': 'object',
				'additionalProperties': false,
				'properties': {
					'expires': {
						'type': 'string'
					},
					'roles': {
						'type': 'array',
						'items': {
							'type': 'string'
						}
					},
					'token': {
						'type': 'string'
					}
				}
			}
		}%v
  	}
}".

(** ** Collaborators outside this file

    Constants and routines of other files that this file only uses: the
    process-wide default namespace, the outer schema template with the shared
    metadata and definitions fragments, and (further down, once the resource
    type is there) the structured-encoding routines of [utils]. They are
    parameters of the development; what is assumed of them is said where it
    is used. *)

Module time.
(** [time.Time], in nanoseconds since the zero instant. *)
Definition Time := Z.
(** [t.IsZero()] *)
Definition IsZero (t : Time) : bool := t =? 0.
End time.

Module defaults.
(** [defaults.Namespace], the process-wide default namespace. *)
Class Process := { Namespace : string }.
End defaults.

(** [V2SchemaTemplate], [MetadataSchema] and [DefaultDefinitions]. *)
Class SchemaFragments := {
  V2SchemaTemplate : string;
  MetadataSchema : string;
  DefaultDefinitions : string
}.

Module Metadata.

(** Modelled from the spec: the resource envelope's metadata (the generated
    type [Metadata] is not in this file): [name], [namespace], [resourceID]
    (64-bit integer, zero = unset) and [expiry] (zero value = no expiry). *)
Record t := mk {
  Name : string;
  Namespace : string;
  Expires : time.Time;
  ID : Z
}.

(** Modelled from the spec: [Expiry()] gets the expiry. *)
Definition Expiry (m : t) : time.Time := Expires m.

(** Modelled from the spec: [SetExpiry(t)] sets the expiry; the zero
    timestamp clears it. *)
Definition SetExpiry (m : t) (expires : time.Time) : t :=
  mk (Name m) (Namespace m) expires (ID m).

(** Modelled from the spec: [Metadata.CheckAndSetDefaults] fills [namespace]
    with the process default if empty and validates that [name] is non-empty,
    failing with a [BadParameter] error if not. The receiver is updated in
    place, so the state after the call is returned with the error. *)
Definition CheckAndSetDefaults `{defaults.Process} (m : t)
  : t * option trace.error :=
  let m' := if String.eqb (Namespace m) ""
            then mk (Name m) defaults.Namespace (Expires m) (ID m)
            else m in
  if String.eqb (Name m') ""
  then (m', Some (trace.BadParameter "missing parameter Name" []))
  else (m', None).

End Metadata.

Module ProvisionTokenV1.
(** Modelled from the spec: a token entry (the generated type
    [ProvisionTokenV1] is not in this file): the token string, its role names
    and an optional expiry. *)
Record t := mk {
  Roles : list string;
  Expires : time.Time;
  Token : string
}.
End ProvisionTokenV1.

Module StaticTokensSpecV2.
(** Modelled from the spec: the domain payload (the generated type
    [StaticTokensSpecV2] is not in this file), an ordered sequence of token
    entries. *)
Record t := mk {
  StaticTokens : list ProvisionTokenV1.t
}.
End StaticTokensSpecV2.

Module MarshalConfig.
(** Modelled from the spec: the configuration snapshot of one call (the type
    [MarshalConfig] is not in this file): [SkipValidation] bypasses the
    schema check, [PreserveResourceID] keeps the resource ID in the encoded
    output, [ID] and [Expires] override the resource ID and the expiry after
    decoding, if nonzero. *)
Record t := mk {
  SkipValidation : bool;
  PreserveResourceID : bool;
  ID : Z;
  Expires : time.Time
}.
(** Modelled from the spec: the configuration a call starts from, every
    field at its zero value. *)
Definition zero : t := mk false false 0 0.
End MarshalConfig.

(** Modelled from the spec: an option of the variadic option list (the type
    [MarshalOption] is not in this file). It updates the configuration under
    construction, or fails. *)
Definition MarshalOption := MarshalConfig.t -> Result MarshalConfig.t.

(** Modelled from the spec: the options are applied in order to the
    configuration; the first one that fails ends the collection with its
    error. *)
Fixpoint collect (cfg : MarshalConfig.t) (opts : list MarshalOption)
  : Result MarshalConfig.t :=
  match opts with
  | [] => Ok cfg
  | o :: rest =>
      match o cfg with
      | Ok cfg' => collect cfg' rest
      | Err err => Err (trace.Wrap err)
      end
  end.

(** Modelled from the spec: [CollectOptions] (not in this file) builds the
    configuration fresh per call from the option list and fails if an option
    does. *)
Definition CollectOptions (opts : list MarshalOption) : Result MarshalConfig.t :=
  collect MarshalConfig.zero opts.

(** Modelled from the spec: the recognized options [ID], [Expires],
    [SkipValidation] and [PreserveResourceID] (declared in another file);
    each sets its field of the configuration. *)
Definition WithResourceID (id : Z) : MarshalOption :=
  fun c => Ok (MarshalConfig.mk (MarshalConfig.SkipValidation c)
                 (MarshalConfig.PreserveResourceID c) id (MarshalConfig.Expires c)).

Definition WithExpires (expires : time.Time) : MarshalOption :=
  fun c => Ok (MarshalConfig.mk (MarshalConfig.SkipValidation c)
                 (MarshalConfig.PreserveResourceID c) (MarshalConfig.ID c) expires).

Definition SkipValidation : MarshalOption :=
  fun c => Ok (MarshalConfig.mk true (MarshalConfig.PreserveResourceID c)
                 (MarshalConfig.ID c) (MarshalConfig.Expires c)).

Definition PreserveResourceID : MarshalOption :=
  fun c => Ok (MarshalConfig.mk (MarshalConfig.SkipValidation c) true
                 (MarshalConfig.ID c) (MarshalConfig.Expires c)).

(** ** The resource *)

(** Modelled from the spec: the kind the constructors stamp in
    ([KindStaticTokens] is declared in another file). *)
Definition KindStaticTokens : string := "static_tokens".
(** Modelled from the spec: the version the constructors stamp in ([V2] is
    declared in another file). *)
Definition V2 : string := "v2".
(** Modelled from the spec: the name the constructors stamp in
    ([MetaNameStaticTokens] is declared in another file). *)
Definition MetaNameStaticTokens : string := "static_tokens".

Module StaticTokensV2.

(** Modelled from the spec: the typed resource (the generated type
    [StaticTokensV2] is not in this file): kind, sub-kind and version, the
    metadata and the payload, as this file's accessors use them. The
    metadata is held by value ([GetMetadata] returns [c.Metadata] as a
    [Metadata]), so a copy of the struct has a metadata of its own. *)
Record t := mk {
  Kind : string;
  SubKind : string;
  Version : string;
  Metadata : Metadata.t;
  Spec : StaticTokensSpecV2.t
}.

Definition GetVersion (c : t) : string := Version c.

Definition GetKind (c : t) : string := Kind c.

Definition GetSubKind (c : t) : string := SubKind c.

Definition SetSubKind (c : t) (sk : string) : t :=
  mk (Kind c) sk (Version c) (Metadata c) (Spec c).

Definition GetResourceID (c : t) : Z := Metadata.ID (Metadata c).

Definition SetResourceID (c : t) (id : Z) : t :=
  mk (Kind c) (SubKind c) (Version c)
     (Metadata.mk (Metadata.Name (Metadata c)) (Metadata.Namespace (Metadata c))
                  (Metadata.Expires (Metadata c)) id)
     (Spec c).

Definition GetName (c : t) : string := Metadata.Name (Metadata c).

Definition SetName (c : t) (e : string) : t :=
  mk (Kind c) (SubKind c) (Version c)
     (Metadata.mk e (Metadata.Namespace (Metadata c))
                  (Metadata.Expires (Metadata c)) (Metadata.ID (Metadata c)))
     (Spec c).

Definition Expiry (c : t) : time.Time := Metadata.Expiry (Metadata c).

Definition SetExpiry (c : t) (expires : time.Time) : t :=
  mk (Kind c) (SubKind c) (Version c)
     (Metadata.SetExpiry (Metadata c) expires) (Spec c).

Definition GetMetadata (c : t) : Metadata.t := Metadata c.

(** [CheckAndSetDefaults] checks validity of all parameters and sets
    defaults: it makes sure the metadata has its defaults and passes the
    metadata's error on, wrapped. *)
Definition CheckAndSetDefaults `{defaults.Process} (c : t)
  : t * option trace.error :=
  let '(m, err) := Metadata.CheckAndSetDefaults (Metadata c) in
  let c' := mk (Kind c) (SubKind c) (Version c) m (Spec c) in
  match err with
  | Some e => (c', Some (trace.Wrap e))
  | None => (c', None)
  end.

End StaticTokensV2.

Module utils.
(** The structured-encoding routines of [utils]: [FastMarshal(v)] encodes,
    [FastUnmarshal(data, &v)] decodes into a zero-valued [v], and
    [UnmarshalWithSchema(schema, &v, data)] decodes after validating [data]
    against [schema]. A decoder returns the filled struct or its error. *)
Class Codec := {
  FastMarshal : StaticTokensV2.t -> Result bytes;
  FastUnmarshal : bytes -> Result StaticTokensV2.t;
  UnmarshalWithSchema : string -> bytes -> Result StaticTokensV2.t
}.
End utils.

(** [NewStaticTokens] is a convenience wrapper to create a StaticTokens
    resource. The result is the struct the returned pointer refers to. *)
Definition NewStaticTokens `{defaults.Process} (spec : StaticTokensSpecV2.t)
  : Result StaticTokensV2.t :=
  let st := StaticTokensV2.mk KindStaticTokens "" V2
              (Metadata.mk MetaNameStaticTokens defaults.Namespace 0 0)
              spec in
  match StaticTokensV2.CheckAndSetDefaults st with
  | (_, Some err) => Err (trace.Wrap err)
  | (st', None) => Ok st'
  end.

(** [DefaultStaticTokens] is used to get the default static tokens (empty
    list) when nothing is specified in file configuration. *)
Definition DefaultStaticTokens `{defaults.Process} : StaticTokensV2.t :=
  StaticTokensV2.mk KindStaticTokens "" V2
    (Metadata.mk MetaNameStaticTokens defaults.Namespace 0 0)
    (StaticTokensSpecV2.mk []).

(** [GetStaticTokensSchema] returns the schema with optionally injected
    schema for extensions. The local [staticTokensSchema] is declared without
    a value, so it holds the empty string when it is tested. *)
Definition GetStaticTokensSchema `{SchemaFragments} (extensionSchema : string)
  : string :=
  let staticTokensSchema := "" in
  let staticTokensSchema :=
    if String.eqb staticTokensSchema ""
    then fmt.Sprintf StaticTokensSpecSchemaTemplate [fmt.str ""]
    else fmt.Sprintf StaticTokensSpecSchemaTemplate
           [fmt.str ("," +:+ extensionSchema)] in
  fmt.Sprintf V2SchemaTemplate
    [fmt.str MetadataSchema; fmt.str staticTokensSchema; fmt.str DefaultDefinitions].

(** The schema assembler as the specification words it: the test is on the
    extension fragment. Used only to compare with [GetStaticTokensSchema]. *)
Definition GetStaticTokensSchema_spec `{SchemaFragments} (extensionSchema : string)
  : string :=
  let staticTokensSchema :=
    if String.eqb extensionSchema ""
    then fmt.Sprintf StaticTokensSpecSchemaTemplate [fmt.str ""]
    else fmt.Sprintf StaticTokensSpecSchemaTemplate
           [fmt.str ("," +:+ extensionSchema)] in
  fmt.Sprintf V2SchemaTemplate
    [fmt.str MetadataSchema; fmt.str staticTokensSchema; fmt.str DefaultDefinitions].

(** ** The default marshaler *)

(** Addresses of structs. *)
Definition loc := positive.

(** A value of interface type [StaticTokens], by its dynamic type: a pointer
    to a [StaticTokensV2], or some other implementation, of which only the
    name of its type (what [%T] prints) matters here; the nil interface
    value is one whose type prints as [<nil>]. *)
Inductive StaticTokens :=
| PtrStaticTokensV2 (p : loc)
| OtherStaticTokens (typeName : string).

(** What [%T] prints for [c]. *)
Definition TypeOf (c : StaticTokens) : string :=
  match c with
  | PtrStaticTokensV2 _ => "*types.StaticTokensV2"
  | OtherStaticTokens typeName => typeName
  end.

(** Code that reads and writes structs through pointers runs on a heap; it
    returns [None] when it reads or writes through a pointer that holds no
    struct: dereferencing a nil pointer panics, and encoding through one is
    not modelled. *)
Definition Exec (A : Type) : Type :=
  gmap loc StaticTokensV2.t -> option (A * gmap loc StaticTokensV2.t).

Definition ret {A} (a : A) : Exec A := fun h => Some (a, h).

Definition bind {A B} (m : Exec A) (k : A -> Exec B) : Exec B :=
  fun h => match m h with
           | Some (a, h') => k a h'
           | None => None
           end.

Notation "x <- m ;; k" := (bind m (fun x => k))
  (at level 100, m at next level, right associativity).

(** [*p] *)
Definition load (p : loc) : Exec StaticTokensV2.t :=
  fun h => match h !! p with
           | Some v => Some (v, h)
           | None => None
           end.

(** [*p = v] *)
Definition store (p : loc) (v : StaticTokensV2.t) : Exec unit :=
  fun h => match h !! p with
           | Some _ => Some (tt, <[p := v]> h)
           | None => None
           end.

(** A local variable whose address is taken: a new cell holding [v]. *)
Definition alloc (v : StaticTokensV2.t) : Exec loc :=
  fun h => let p := fresh (dom h) in Some (p, <[p := v]> h).

(** [p.SetResourceID(id)] through a pointer. *)
Definition SetResourceID_at (p : loc) (id : Z) : Exec unit :=
  c <- load p ;; store p (StaticTokensV2.SetResourceID c id).

Module teleportStaticTokensMarshaler.

(** [Unmarshal] unmarshals StaticTokens from JSON. The result is the struct
    the returned pointer refers to. *)
Definition Unmarshal `{defaults.Process} `{SchemaFragments} `{utils.Codec}
    (data : bytes) (opts : list MarshalOption) : Result StaticTokensV2.t :=
  if (length data =? 0)%nat then
    Err (trace.BadParameter "missing resource data" [])
  else
    match CollectOptions opts with
    | Err err => Err (trace.Wrap err)
    | Ok cfg =>
        let decoded :=
          if MarshalConfig.SkipValidation cfg then
            match utils.FastUnmarshal data with
            | Err err => Err (trace.BadParameter (trace.Error err) [])
            | Ok staticTokens => Ok staticTokens
            end
          else
            match utils.UnmarshalWithSchema (GetStaticTokensSchema "") data with
            | Err err => Err (trace.BadParameter (trace.Error err) [])
            | Ok staticTokens => Ok staticTokens
            end in
        match decoded with
        | Err err => Err err
        | Ok staticTokens =>
            match StaticTokensV2.CheckAndSetDefaults staticTokens with
            | (_, Some err) => Err (trace.Wrap err)
            | (staticTokens, None) =>
                let staticTokens :=
                  if negb (MarshalConfig.ID cfg =? 0)
                  then StaticTokensV2.SetResourceID staticTokens (MarshalConfig.ID cfg)
                  else staticTokens in
                let staticTokens :=
                  if negb (time.IsZero (MarshalConfig.Expires cfg))
                  then StaticTokensV2.SetExpiry staticTokens (MarshalConfig.Expires cfg)
                  else staticTokens in
                Ok staticTokens
            end
        end
    end.

(** [Marshal] marshals StaticTokens to JSON. *)
Definition Marshal `{utils.Codec}
    (c : StaticTokens) (opts : list MarshalOption) : Exec (Result bytes) :=
  match CollectOptions opts with
  | Err err => ret (Err (trace.Wrap err))
  | Ok cfg =>
      match c with
      | PtrStaticTokensV2 resource =>
          resource <-
            (if negb (MarshalConfig.PreserveResourceID cfg) then
               (* avoid modifying the original object *)
               v <- load resource ;;
               copy <- alloc v ;;
               _ <- SetResourceID_at copy 0 ;;
               ret copy
             else ret resource) ;;
          v <- load resource ;;
          ret (utils.FastMarshal v)
      | _ =>
          ret (Err (trace.BadParameter "unrecognized resource version %T"
                      [fmt.val (TypeOf c)]))
      end
  end.

End teleportStaticTokensMarshaler.

(** *** Vocabulary for the properties of the marshaler *)

(** The decoder [Unmarshal] runs under a configuration: the fast one when
    validation is skipped, else the validating one with the schema assembled
    for no extension. *)
Definition decodeWith `{SchemaFragments} `{utils.Codec}
    (cfg : MarshalConfig.t) (data : bytes) : Result StaticTokensV2.t :=
  if MarshalConfig.SkipValidation cfg
  then utils.FastUnmarshal data
  else utils.UnmarshalWithSchema (GetStaticTokensSchema "") data.

(** The option overrides of [Unmarshal], in the order the code applies them. *)
Definition overrides (cfg : MarshalConfig.t) (c : StaticTokensV2.t)
  : StaticTokensV2.t :=
  let c := if negb (MarshalConfig.ID cfg =? 0)
           then StaticTokensV2.SetResourceID c (MarshalConfig.ID cfg) else c in
  if negb (time.IsZero (MarshalConfig.Expires cfg))
  then StaticTokensV2.SetExpiry c (MarshalConfig.Expires cfg) else c.

(** A valid resource: [CheckAndSetDefaults] accepts it and has nothing left
    to fill in. (The check updates its receiver, so a resource that has been
    checked is in this state.) *)
Definition valid `{defaults.Process} (c : StaticTokensV2.t) : Prop :=
  StaticTokensV2.CheckAndSetDefaults c = (c, None).

(** The encoding routines are lossless at [c]: encoding succeeds, produces
    some data, and the validating decoder reads [c] back from it. *)
Definition lossless_at `{SchemaFragments} `{utils.Codec}
    (c : StaticTokensV2.t) : Prop :=
  exists data,
    utils.FastMarshal c = Ok data /\ data <> [] /\
    utils.UnmarshalWithSchema (GetStaticTokensSchema "") data = Ok c.

(** [contains needle hay]: [needle] occurs in [hay]. *)
Fixpoint contains (needle hay : string) : bool :=
  String.prefix needle hay ||
  match hay with
  | EmptyString => false
  | String _ rest => contains needle rest
  end.

(** ** The marshaler registry

    [staticTokensMarshaler] is a package variable of interface type, two
    machine words (the method table of the dynamic type and the data
    pointer), each read or written in one step; [marshalerMutex] guards it.
    Every call of [SetStaticTokensMarshaler] or [GetStaticTokensMarshaler]
    runs in a goroutine of its own, and a scheduler picks which goroutine
    takes the next step. *)

Module Registry.

(** A value of interface type [StaticTokensMarshaler]. *)
Record StaticTokensMarshaler := mk {
  tab : Z;
  data : Z
}.

(** Where a goroutine stands in its call. [SetStaticTokensMarshaler(m)]
    locks, assigns [m] word by word, runs the deferred unlock and returns;
    [GetStaticTokensMarshaler()] locks, reads the variable word by word into
    its result, runs the deferred unlock and returns the result. *)
Inductive pc :=
| SetLock (m : StaticTokensMarshaler)
| SetWriteTab (m : StaticTokensMarshaler)
| SetWriteData (m : StaticTokensMarshaler)
| SetUnlock (m : StaticTokensMarshaler)
| SetDone (m : StaticTokensMarshaler)
| GetLock
| GetReadTab
| GetReadData (t : Z)
| GetUnlock (r : StaticTokensMarshaler)
| GetDone (r : StaticTokensMarshaler).

Record state := mkState {
  marshalerMutex : bool;
  staticTokensMarshaler : StaticTokensMarshaler;
  goroutines : list pc
}.

(** One step of a goroutine at [at_] on the lock and the variable; [None]
    when it cannot move: it waits for the lock, or it has returned. *)
Definition instr (at_ : pc) (locked : bool) (v : StaticTokensMarshaler)
  : option (pc * bool * StaticTokensMarshaler) :=
  match at_ with
  | SetLock m => if locked then None else Some (SetWriteTab m, true, v)
  | SetWriteTab m => Some (SetWriteData m, locked, mk (tab m) (data v))
  | SetWriteData m => Some (SetUnlock m, locked, mk (tab v) (data m))
  | SetUnlock m => Some (SetDone m, false, v)
  | SetDone _ => None
  | GetLock => if locked then None else Some (GetReadTab, true, v)
  | GetReadTab => Some (GetReadData (tab v), locked, v)
  | GetReadData t => Some (GetUnlock (mk t (data v)), locked, v)
  | GetUnlock r => Some (GetDone r, false, v)
  | GetDone _ => None
  end.

(** Goroutine [i] takes a step, if it can. *)
Definition step (i : nat) (s : state) : option state :=
  match goroutines s !! i with
  | None => None
  | Some at_ =>
      match instr at_ (marshalerMutex s) (staticTokensMarshaler s) with
      | None => None
      | Some (at', locked, v) =>
          Some (mkState locked v (<[i := at']> (goroutines s)))
      end
  end.

(** The scheduler's choices, one goroutine per step; picking a goroutine
    that cannot move changes nothing. *)
Fixpoint run (schedule : list nat) (s : state) : state :=
  match schedule with
  | [] => s
  | i :: rest => run rest (default s (step i s))
  end.

(** The calls a program makes. *)
Inductive call :=
| SetStaticTokensMarshaler (m : StaticTokensMarshaler)
| GetStaticTokensMarshaler.

Definition start (c : call) : pc :=
  match c with
  | SetStaticTokensMarshaler m => SetLock m
  | GetStaticTokensMarshaler => GetLock
  end.

(** The process at its start: the lock free, the variable holding the
    default marshaler [d], no call begun. *)
Definition init (d : StaticTokensMarshaler) (calls : list call) : state :=
  mkState false d (start <$> calls).

(** Between its lock and its unlock a goroutine is at one of these points:
    the accesses to the variable and the unlock itself. *)
Definition holds_lock (at_ : pc) : bool :=
  match at_ with
  | SetWriteTab _ | SetWriteData _ | SetUnlock _
  | GetReadTab | GetReadData _ | GetUnlock _ => true
  | _ => false
  end.

(** [m] is the default marshaler or the argument of a call of
    [SetStaticTokensMarshaler] that has returned. *)
Definition installed (d : StaticTokensMarshaler) (gs : list pc)
    (m : StaticTokensMarshaler) : Prop :=
  m = d \/ exists j, gs !! j = Some (SetDone m).

(** What the variable holds, by where the goroutine that holds the lock
    stands. *)
Definition holder_ok (d : StaticTokensMarshaler) (gs : list pc)
    (v : StaticTokensMarshaler) (at_ : pc) : Prop :=
  match at_ with
  | SetWriteTab _ => True
  | SetWriteData m => tab v = tab m
  | SetUnlock m => v = m
  | GetReadTab => installed d gs v
  | GetReadData t => installed d gs v /\ t = tab v
  | GetUnlock r => installed d gs v /\ r = v
  | _ => False
  end.

(** The invariant of the registry. *)
Record Inv (d : StaticTokensMarshaler) (s : state) : Prop := {
  inv_results : forall i r,
    goroutines s !! i = Some (GetDone r) -> installed d (goroutines s) r;
  inv_free :
    marshalerMutex s = false ->
    installed d (goroutines s) (staticTokensMarshaler s) /\
    forall i at_, goroutines s !! i = Some at_ -> holds_lock at_ = false;
  inv_held :
    marshalerMutex s = true ->
    exists i at_,
      goroutines s !! i = Some at_ /\
      holder_ok d (goroutines s) (staticTokensMarshaler s) at_ /\
      forall j at', goroutines s !! j = Some at' -> holds_lock at' = true -> j = i
}.

End Registry.

(** ** A reference instance of the collaborators

    A small self-delimiting encoding of the resource, with a validating
    decoder that rejects trailing data and a fast one that ignores it, and
    sample values for the constants. It is used to run the marshaler on
    concrete inputs. *)

Module Reference.

Import Byte.
Local Open Scope list_scope.

Definition escape (b : byte) : bytes :=
  match b with
  | x00 => [x01; x02]
  | x01 => [x01; x01]
  | _ => [b]
  end.

Definition encString (s : string) : bytes :=
  flat_map escape (list_byte_of_string s) ++ [x00].

Fixpoint unescape (bs : bytes) : option (bytes * bytes) :=
  match bs with
  | [] => None
  | x00 :: rest => Some ([], rest)
  | x01 :: x01 :: rest =>
      '(s, rest') ← unescape rest; Some (x01 :: s, rest')
  | x01 :: x02 :: rest =>
      '(s, rest') ← unescape rest; Some (x00 :: s, rest')
  | x01 :: _ => None
  | b :: rest =>
      '(s, rest') ← unescape rest; Some (b :: s, rest')
  end.

Definition decString (bs : bytes) : option (string * bytes) :=
  '(s, rest) ← unescape bs; Some (string_of_list_byte s, rest).

Definition encZ (z : Z) : bytes :=
  encString (NilZero.string_of_int (Z.to_int z)).

Definition decZ (bs : bytes) : option (Z * bytes) :=
  '(s, rest) ← decString bs;
  i ← NilZero.int_of_string s;
  Some (Z.of_int i, rest).

Definition encList {A} (enc : A -> bytes) (l : list A) : bytes :=
  encZ (Z.of_nat (length l)) ++ flat_map enc l.

Fixpoint decItems {A} (dec : bytes -> option (A * bytes)) (n : nat) (bs : bytes)
  : option (list A * bytes) :=
  match n with
  | O => Some ([], bs)
  | S n' =>
      '(a, rest) ← dec bs;
      '(l, rest') ← decItems dec n' rest;
      Some (a :: l, rest')
  end.

Definition decList {A} (dec : bytes -> option (A * bytes)) (bs : bytes)
  : option (list A * bytes) :=
  '(n, rest) ← decZ bs;
  if n <? 0 then None else decItems dec (Z.to_nat n) rest.

Definition encToken (t : ProvisionTokenV1.t) : bytes :=
  encList encString (ProvisionTokenV1.Roles t) ++
  encZ (ProvisionTokenV1.Expires t) ++
  encString (ProvisionTokenV1.Token t).

Definition decToken (bs : bytes) : option (ProvisionTokenV1.t * bytes) :=
  '(roles, bs) ← decList decString bs;
  '(expires, bs) ← decZ bs;
  '(token, bs) ← decString bs;
  Some (ProvisionTokenV1.mk roles expires token, bs).

Definition encode (c : StaticTokensV2.t) : bytes :=
  let m := StaticTokensV2.Metadata c in
  encString (StaticTokensV2.Kind c) ++
  encString (StaticTokensV2.SubKind c) ++
  encString (StaticTokensV2.Version c) ++
  encString (Metadata.Name m) ++
  encString (Metadata.Namespace m) ++
  encZ (Metadata.Expires m) ++
  encZ (Metadata.ID m) ++
  encList encToken (StaticTokensSpecV2.StaticTokens (StaticTokensV2.Spec c)).

Definition decode (bs : bytes) : option (StaticTokensV2.t * bytes) :=
  '(kind, bs) ← decString bs;
  '(subKind, bs) ← decString bs;
  '(version, bs) ← decString bs;
  '(name, bs) ← decString bs;
  '(namespace, bs) ← decString bs;
  '(expires, bs) ← decZ bs;
  '(id, bs) ← decZ bs;
  '(tokens, bs) ← decList decToken bs;
  Some (StaticTokensV2.mk kind subKind version
          (Metadata.mk name namespace expires id)
          (StaticTokensSpecV2.mk tokens), bs).

#[export] Instance codec : utils.Codec := {|
  utils.FastMarshal c := Ok (encode c);
  utils.FastUnmarshal bs :=
    match decode bs with
    | Some (c, _) => Ok c
    | None => Err (trace.Plain "malformed resource data")
    end;
  utils.UnmarshalWithSchema schema bs :=
    match decode bs with
    | Some (c, []) => Ok c
    | Some _ => Err (trace.Plain "additional data is not allowed")
    | None => Err (trace.Plain "malformed resource data")
    end
|}.

#[export] Instance process : defaults.Process := {|
  defaults.Namespace := "default"
|}.

#[export] Instance fragments : SchemaFragments := {|
  V2SchemaTemplate :=
    dq "{'type': 'object', 'properties': {'metadata': %v, 'spec': %v}%v}";
  MetadataSchema := dq "{'type': 'object'}";
  DefaultDefinitions := ""
|}.

(** An option that fails, as an option for a version that is not supported
    would. *)
Definition unsupported : MarshalOption :=
  fun _ => Err (trace.BadParameter "version is not supported" []).

(** A resource with one token, stored under a resource ID. *)
Definition sample : StaticTokensV2.t :=
  StaticTokensV2.mk KindStaticTokens "" V2
    (Metadata.mk MetaNameStaticTokens "default" 0 7)
    (StaticTokensSpecV2.mk
       [ProvisionTokenV1.mk ["Node"; "Proxy"] 0 "secret-token"]).

(** [sample], held at address 1. *)
Definition sample_heap : gmap loc StaticTokensV2.t :=
  {[ 1%positive := sample ]}.

(** The configurations that [[WithResourceID 42]] and
    [[SkipValidation; WithResourceID 0; WithExpires 0]] collect to. *)
Definition cfg_id42 : MarshalConfig.t := MarshalConfig.mk false false 42 0.
Definition cfg_zeros : MarshalConfig.t := MarshalConfig.mk true false 0 0.

End Reference.

(** ** Vocabulary for further properties *)


(** The goroutine has returned from its call. *)
Definition returned (at_ : Registry.pc) : bool :=
  match at_ with
  | Registry.SetDone _ | Registry.GetDone _ => true
  | _ => false
  end.

(** The steps a goroutine still has to take. *)
Definition remaining (at_ : Registry.pc) : nat :=
  match at_ with
  | Registry.SetLock _ | Registry.GetLock => 4
  | Registry.SetWriteTab _ | Registry.GetReadTab => 3
  | Registry.SetWriteData _ | Registry.GetReadData _ => 2
  | Registry.SetUnlock _ | Registry.GetUnlock _ => 1
  | Registry.SetDone _ | Registry.GetDone _ => 0
  end.

(** The steps all goroutines together still have to take. *)
Definition work (s : Registry.state) : nat :=
  sum_list (remaining <$> Registry.goroutines s).

(** The choices of a schedule at which the chosen goroutine did move. *)
Fixpoint moves (schedule : list nat) (s : Registry.state) : nat :=
  match schedule with
  | [] => 0
  | i :: rest =>
      match Registry.step i s with
      | Some s' => S (moves rest s')
      | None => moves rest s
      end
  end.

(** What a call leaves in the variable that held [v], and where its
    goroutine stands once it has returned. *)
Definition effect (c : Registry.call) (v : Registry.StaticTokensMarshaler)
  : Registry.StaticTokensMarshaler :=
  match c with
  | Registry.SetStaticTokensMarshaler m => m
  | Registry.GetStaticTokensMarshaler => v
  end.

Definition outcome (c : Registry.call) (v : Registry.StaticTokensMarshaler)
  : Registry.pc :=
  match c with
  | Registry.SetStaticTokensMarshaler m => Registry.SetDone m
  | Registry.GetStaticTokensMarshaler => Registry.GetDone v
  end.

(** Calls made one after the other, each run to its return before the next
    starts: the schedule, and what a single variable would do. *)
Definition sequential (n : nat) : list nat :=
  flat_map (fun i => [i; i; i; i]) (seq 0 n).

Fixpoint results (v : Registry.StaticTokensMarshaler) (calls : list Registry.call)
  : list Registry.pc :=
  match calls with
  | [] => []
  | c :: rest => outcome c v :: results (effect c v) rest
  end.

Definition final (v : Registry.StaticTokensMarshaler) (calls : list Registry.call)
  : Registry.StaticTokensMarshaler :=
  foldl (fun v c => effect c v) v calls.

(** More of the reference instance: a codec with no schema validator, data
    no decoder accepts, and a resource with no name. *)
Module Samples.

#[export] Instance unvalidated : utils.Codec := {|
  utils.FastMarshal := @utils.FastMarshal Reference.codec;
  utils.FastUnmarshal := @utils.FastUnmarshal Reference.codec;
  utils.UnmarshalWithSchema schema bs :=
    Err (trace.Plain "no schema validator")
|}.

#[export] Instance otherFragments : SchemaFragments := {|
  V2SchemaTemplate := "%v%v%v";
  MetadataSchema := "";
  DefaultDefinitions := ""
|}.


Definition unnamed : StaticTokensV2.t :=
  StaticTokensV2.SetName Reference.sample "".

Definition cfg_fast : MarshalConfig.t := MarshalConfig.mk true false 0 0.
Definition cfg_expires : MarshalConfig.t := MarshalConfig.mk false false 0 5.
Definition cfg_preserve : MarshalConfig.t := MarshalConfig.mk false true 0 0.
Definition cfg_id7 : MarshalConfig.t := MarshalConfig.mk false false 7 0.

End Samples.

(** * Properties *)

(** ** Schema assembler *)

(** C1 (as the code has it): the extension fragment is never used. The test
    is on the local [staticTokensSchema], which is still empty, so
    [GetStaticTokensSchema] renders the template with no extra properties
    whatever fragment it is given. *)
Theorem GetStaticTokensSchema_ignores_extension
    `{SchemaFragments} (extensionSchema : string) :
  GetStaticTokensSchema extensionSchema = GetStaticTokensSchema "".
Proof. unfold GetStaticTokensSchema. cbn [String.eqb]. reflexivity. Qed.

(** On the empty fragment the code and the specification's wording agree. *)
Lemma GetStaticTokensSchema_spec_empty `{SchemaFragments} :
  GetStaticTokensSchema_spec "" = GetStaticTokensSchema "".
Proof. unfold GetStaticTokensSchema_spec, GetStaticTokensSchema. reflexivity. Qed.

(** A fragment that the specification's wording injects and the code drops. *)
Example GetStaticTokensSchema_drops_fragment :
  let fragment := dq "'x': {'type': 'string'}" in
  contains fragment (@GetStaticTokensSchema_spec Reference.fragments fragment) = true /\
  contains fragment (@GetStaticTokensSchema Reference.fragments fragment) = false.
Proof. split; vm_compute; reflexivity. Qed.

(** ** Defaulting *)

Lemma Metadata_CheckAndSetDefaults_idempotent `{defaults.Process} (m : Metadata.t) :
  Metadata.CheckAndSetDefaults (Metadata.CheckAndSetDefaults m).1 =
  Metadata.CheckAndSetDefaults m.
Proof.
  destruct m as [name namespace expires id].
  unfold Metadata.CheckAndSetDefaults; cbn [Metadata.Name Metadata.Namespace
    Metadata.Expires Metadata.ID].
  destruct (String.eqb_spec namespace "") as [-> | Hns];
    cbn [Metadata.Name Metadata.Namespace Metadata.Expires Metadata.ID];
    destruct (String.eqb_spec name "") as [-> | Hname];
    cbn [fst Metadata.Name Metadata.Namespace Metadata.Expires Metadata.ID].
  - destruct (String.eqb_spec defaults.Namespace ""); reflexivity.
  - destruct (String.eqb_spec defaults.Namespace "");
      cbn [Metadata.Name]; destruct (String.eqb_spec name ""); congruence.
  - destruct (String.eqb_spec namespace ""); [congruence | reflexivity].
  - destruct (String.eqb_spec namespace ""); [congruence |].
    cbn [Metadata.Name]. destruct (String.eqb_spec name ""); congruence.
Qed.

(** C5: [CheckAndSetDefaults] is idempotent. A second call on the state the
    first one left finds nothing to change and gives the same verdict. *)
Theorem CheckAndSetDefaults_idempotent `{defaults.Process} (c : StaticTokensV2.t) :
  StaticTokensV2.CheckAndSetDefaults (StaticTokensV2.CheckAndSetDefaults c).1 =
  StaticTokensV2.CheckAndSetDefaults c.
Proof.
  destruct c as [kind subKind version m spec].
  unfold StaticTokensV2.CheckAndSetDefaults; cbn [StaticTokensV2.Metadata
    StaticTokensV2.Kind StaticTokensV2.SubKind StaticTokensV2.Version
    StaticTokensV2.Spec].
  pose proof (Metadata_CheckAndSetDefaults_idempotent m) as Hm.
  destruct (Metadata.CheckAndSetDefaults m) as [m1 e1] eqn:E1.
  cbn [fst] in Hm.
  destruct e1 as [e |]; cbn [fst StaticTokensV2.Metadata StaticTokensV2.Kind
    StaticTokensV2.SubKind StaticTokensV2.Version StaticTokensV2.Spec];
    rewrite Hm; reflexivity.
Qed.

(** A resource whose name and namespace are set is valid, and conversely. *)
Lemma valid_iff `{defaults.Process} (c : StaticTokensV2.t) :
  valid c <->
  StaticTokensV2.GetName c <> "" /\
  (Metadata.Namespace (StaticTokensV2.Metadata c) = "" -> defaults.Namespace = "").
Proof.
  destruct c as [kind subKind version [name namespace expires id] spec].
  unfold valid, StaticTokensV2.CheckAndSetDefaults, Metadata.CheckAndSetDefaults,
    StaticTokensV2.GetName.
  cbn [StaticTokensV2.Metadata StaticTokensV2.Kind StaticTokensV2.SubKind
    StaticTokensV2.Version StaticTokensV2.Spec Metadata.Name Metadata.Namespace
    Metadata.Expires Metadata.ID].
  destruct (String.eqb_spec namespace "") as [-> | Hns];
    cbn [Metadata.Name Metadata.Namespace Metadata.Expires Metadata.ID];
    destruct (String.eqb_spec name "") as [-> | Hname];
    split; try congruence; try tauto.
  - intros Heq. split; [assumption | intros _; congruence].
  - intros [_ Hd]. rewrite Hd by reflexivity. reflexivity.
Qed.

(** Validity does not depend on the resource ID. *)
Lemma valid_SetResourceID `{defaults.Process} (c : StaticTokensV2.t) (id : Z) :
  valid c -> valid (StaticTokensV2.SetResourceID c id).
Proof.
  rewrite !valid_iff. destruct c as [kind subKind version [name ns e i] spec].
  exact (fun H => H).
Qed.

(** ** Unmarshal *)

Section Unmarshal.
Context `{!defaults.Process, !SchemaFragments, !utils.Codec}.

(** C3: empty input is rejected before anything else is looked at, whatever
    the options are; [Unmarshal] is a total function, so it cannot panic. *)
Theorem Unmarshal_empty (opts : list MarshalOption) :
  teleportStaticTokensMarshaler.Unmarshal [] opts =
  Err (trace.TraceErr trace.BadParameterKind "missing resource data").
Proof. reflexivity. Qed.

(** When the data is not empty, the options collect, the selected decoder
    accepts the data and defaulting succeeds, [Unmarshal] returns the
    defaulted resource with the overrides applied. *)
Lemma Unmarshal_success data opts cfg st st' :
  data <> [] ->
  CollectOptions opts = Ok cfg ->
  decodeWith cfg data = Ok st ->
  StaticTokensV2.CheckAndSetDefaults st = (st', None) ->
  teleportStaticTokensMarshaler.Unmarshal data opts = Ok (overrides cfg st').
Proof.
  intros Hdata Hcfg Hdec Hchk.
  unfold teleportStaticTokensMarshaler.Unmarshal.
  destruct data as [| b data]; [congruence |]. cbn [length Nat.eqb].
  rewrite Hcfg. unfold decodeWith in Hdec.
  destruct (MarshalConfig.SkipValidation cfg); rewrite Hdec, Hchk; reflexivity.
Qed.

(** Conversely, a resource comes back only along that path. *)
Lemma Unmarshal_Ok_inv data opts r :
  teleportStaticTokensMarshaler.Unmarshal data opts = Ok r ->
  exists cfg st st',
    data <> [] /\ CollectOptions opts = Ok cfg /\ decodeWith cfg data = Ok st /\
    StaticTokensV2.CheckAndSetDefaults st = (st', None) /\ r = overrides cfg st'.
Proof.
  unfold teleportStaticTokensMarshaler.Unmarshal, decodeWith.
  destruct data as [| b data]; [discriminate |]. cbn [length Nat.eqb].
  destruct (CollectOptions opts) as [cfg | e]; [| discriminate].
  intros Hr. exists cfg.
  destruct (MarshalConfig.SkipValidation cfg).
  - destruct (utils.FastUnmarshal (b :: data)) as [st | e]; [| discriminate].
    destruct (StaticTokensV2.CheckAndSetDefaults st) as [st' [e |]] eqn:E;
      [discriminate |].
    exists st, st'. injection Hr as <-. repeat split; congruence.
  - destruct (utils.UnmarshalWithSchema _ (b :: data)) as [st | e]; [| discriminate].
    destruct (StaticTokensV2.CheckAndSetDefaults st) as [st' [e |]] eqn:E;
      [discriminate |].
    exists st, st'. injection Hr as <-. repeat split; congruence.
Qed.

(** C4: a nonzero [ID] option wins over whatever ID the data carried. The
    result is the decoded and defaulted resource [st'] with the ID set to the
    option's value (and then the expiry override, which leaves the ID alone):
    the override works on the state [CheckAndSetDefaults] returned. *)
Theorem Unmarshal_ID_override data opts cfg st st' :
  data <> [] ->
  CollectOptions opts = Ok cfg ->
  MarshalConfig.ID cfg <> 0 ->
  decodeWith cfg data = Ok st ->
  StaticTokensV2.CheckAndSetDefaults st = (st', None) ->
  exists r,
    teleportStaticTokensMarshaler.Unmarshal data opts = Ok r /\
    StaticTokensV2.GetResourceID r = MarshalConfig.ID cfg /\
    r = (let c := StaticTokensV2.SetResourceID st' (MarshalConfig.ID cfg) in
         if time.IsZero (MarshalConfig.Expires cfg) then c
         else StaticTokensV2.SetExpiry c (MarshalConfig.Expires cfg)).
Proof.
  intros Hdata Hcfg Hid Hdec Hchk.
  exists (overrides cfg st'). split; [eapply Unmarshal_success; eassumption |].
  unfold overrides. apply Z.eqb_neq in Hid. rewrite Hid. cbn [negb].
  destruct (time.IsZero (MarshalConfig.Expires cfg)); split; reflexivity.
Qed.

(** C10: zero-valued overrides are not applied. With the [ID] option at zero
    the resource ID is the one decoding and defaulting produced, with the
    [Expires] option at the zero time the expiry is, and with both the whole
    resource is. *)
Theorem Unmarshal_zero_overrides_ignored data opts cfg st st' :
  data <> [] ->
  CollectOptions opts = Ok cfg ->
  decodeWith cfg data = Ok st ->
  StaticTokensV2.CheckAndSetDefaults st = (st', None) ->
  exists r,
    teleportStaticTokensMarshaler.Unmarshal data opts = Ok r /\
    (MarshalConfig.ID cfg = 0 ->
     StaticTokensV2.GetResourceID r = StaticTokensV2.GetResourceID st') /\
    (time.IsZero (MarshalConfig.Expires cfg) = true ->
     StaticTokensV2.Expiry r = StaticTokensV2.Expiry st') /\
    (MarshalConfig.ID cfg = 0 -> time.IsZero (MarshalConfig.Expires cfg) = true ->
     r = st').
Proof.
  intros Hdata Hcfg Hdec Hchk.
  exists (overrides cfg st'). split; [eapply Unmarshal_success; eassumption |].
  unfold overrides.
  repeat split.
  - intros ->. cbn [Z.eqb negb].
    destruct (time.IsZero (MarshalConfig.Expires cfg)); reflexivity.
  - intros ->. cbn [negb].
    destruct (MarshalConfig.ID cfg =? 0); reflexivity.
  - intros -> ->. reflexivity.
Qed.

End Unmarshal.

(** ** Marshal *)

Lemma contains_prefix (needle rest : string) :
  String.prefix needle (needle +:+ rest) = true.
Proof.
  induction needle as [| c needle IH]; [destruct rest; reflexivity |].
  change (String c needle +:+ rest) with (String c (needle +:+ rest)).
  cbn [String.prefix]. destruct (ascii_dec c c); [assumption | congruence].
Qed.

Lemma append_empty_r (s : string) : s +:+ "" = s.
Proof.
  induction s as [| c s IH]; [reflexivity |].
  change (String c s +:+ "") with (String c (s +:+ "")). congruence.
Qed.

(** A text that ends with [needle] contains it. *)
Lemma contains_app (before needle : string) :
  contains needle (before +:+ needle) = true.
Proof.
  induction before as [| c before IH].
  - change ("" +:+ needle) with needle.
    pose proof (contains_prefix needle "") as Hp.
    rewrite append_empty_r in Hp.
    destruct needle; cbn [contains]; rewrite Hp; reflexivity.
  - change (String c before +:+ needle) with (String c (before +:+ needle)).
    cbn [contains]. rewrite IH. apply orb_true_r.
Qed.

(** The message [Marshal] builds for a value of type [typeName]. *)
Lemma Sprintf_unrecognized (typeName : string) :
  fmt.Sprintf "unrecognized resource version %T" [fmt.val typeName] =
  "unrecognized resource version " +:+ typeName.
Proof.
  cbv -[String.append]. rewrite append_empty_r. reflexivity.
Qed.

Section Marshal.
Context `{!utils.Codec}.

(** What [Marshal] does with a pointer to a resource [r] once the options
    have collected: with [PreserveResourceID] it encodes [r] where it is;
    without, it encodes a copy of [r] with the ID reset, held in a new
    cell. *)
Lemma Marshal_StaticTokensV2 (h : gmap loc StaticTokensV2.t) p r opts cfg :
  h !! p = Some r ->
  CollectOptions opts = Ok cfg ->
  teleportStaticTokensMarshaler.Marshal (PtrStaticTokensV2 p) opts h =
  if MarshalConfig.PreserveResourceID cfg
  then Some (utils.FastMarshal r, h)
  else Some (utils.FastMarshal (StaticTokensV2.SetResourceID r 0),
             <[fresh (dom h) := StaticTokensV2.SetResourceID r 0]> h).
Proof.
  intros Hp Hcfg.
  unfold teleportStaticTokensMarshaler.Marshal. rewrite Hcfg.
  destruct (MarshalConfig.PreserveResourceID cfg); cbn [negb].
  - unfold bind, ret, load. rewrite Hp. reflexivity.
  - unfold bind, ret, load, alloc, SetResourceID_at, store, bind, load.
    rewrite Hp. rewrite !lookup_insert_eq. rewrite insert_insert_eq.
    reflexivity.
Qed.

(** When the options do not collect, [Marshal] returns their error and
    touches nothing. *)
Lemma Marshal_options_fail (h : gmap loc StaticTokensV2.t) c opts err :
  CollectOptions opts = Err err ->
  teleportStaticTokensMarshaler.Marshal c opts h = Some (Err (trace.Wrap err), h).
Proof.
  intros Hcfg. unfold teleportStaticTokensMarshaler.Marshal. rewrite Hcfg.
  reflexivity.
Qed.

(** C6: [Marshal] leaves the caller's resource as it is. Whatever the
    options and whatever the encoder answers (an error included), the call
    returns, the cell [p] still holds [r] and so does every cell of the heap
    it started from. Without [PreserveResourceID] what is encoded is a copy
    held in a cell that was not in use: its resource ID is zero and every
    other field is the one of [r]. *)
Theorem Marshal_leaves_resource_unchanged
    (h : gmap loc StaticTokensV2.t) (p : loc) (r : StaticTokensV2.t)
    (opts : list MarshalOption) :
  h !! p = Some r ->
  exists res h',
    teleportStaticTokensMarshaler.Marshal (PtrStaticTokensV2 p) opts h =
      Some (res, h') /\
    h' !! p = Some r /\
    (forall q v, h !! q = Some v -> h' !! q = Some v) /\
    (forall cfg,
       CollectOptions opts = Ok cfg ->
       MarshalConfig.PreserveResourceID cfg = false ->
       exists copy encoded,
         h !! copy = None /\
         h' = <[copy := encoded]> h /\
         res = utils.FastMarshal encoded /\
         StaticTokensV2.GetResourceID encoded = 0 /\
         StaticTokensV2.Kind encoded = StaticTokensV2.Kind r /\
         StaticTokensV2.SubKind encoded = StaticTokensV2.SubKind r /\
         StaticTokensV2.Version encoded = StaticTokensV2.Version r /\
         StaticTokensV2.GetName encoded = StaticTokensV2.GetName r /\
         Metadata.Namespace (StaticTokensV2.Metadata encoded) =
           Metadata.Namespace (StaticTokensV2.Metadata r) /\
         StaticTokensV2.Expiry encoded = StaticTokensV2.Expiry r /\
         StaticTokensV2.Spec encoded = StaticTokensV2.Spec r).
Proof.
  intros Hp.
  assert (Hfresh : h !! fresh (dom h) = None)
    by (apply not_elem_of_dom, is_fresh).
  destruct (CollectOptions opts) as [cfg | err] eqn:Hcfg.
  - rewrite (Marshal_StaticTokensV2 h p r opts cfg Hp Hcfg).
    destruct (MarshalConfig.PreserveResourceID cfg) eqn:Hpre.
    + exists (utils.FastMarshal r), h.
      split; [reflexivity |]. split; [exact Hp |]. split; [auto |].
      intros cfg' Hcfg' Hpre'. congruence.
    + eexists _, _. split; [reflexivity |].
      assert (Hsub : forall q v, h !! q = Some v ->
                <[fresh (dom h) := StaticTokensV2.SetResourceID r 0]> h !! q = Some v).
      { intros q v Hq. rewrite lookup_insert_ne; [assumption | congruence]. }
      split; [apply Hsub, Hp |]. split; [exact Hsub |].
      intros cfg' _ _.
      exists (fresh (dom h)), (StaticTokensV2.SetResourceID r 0).
      split; [assumption |]. repeat split.
  - rewrite (Marshal_options_fail h _ opts err Hcfg).
    eexists _, _. split; [reflexivity |]. split; [exact Hp |]. split; [auto |].
    intros cfg' Hcfg'. discriminate.
Qed.

(** C7 (as the code has it): on a value of another dynamic type [Marshal]
    touches nothing and produces no data. The options are collected first:
    if that fails, their error is what comes back; otherwise the result is a
    [BadParameter] error whose message ends with the name of the type. *)
Theorem Marshal_unrecognized_type
    (h : gmap loc StaticTokensV2.t) (typeName : string) (opts : list MarshalOption) :
  teleportStaticTokensMarshaler.Marshal (OtherStaticTokens typeName) opts h =
    Some (match CollectOptions opts with
          | Ok _ => Err (trace.TraceErr trace.BadParameterKind
                           ("unrecognized resource version " +:+ typeName))
          | Err err => Err (trace.Wrap err)
          end, h) /\
  contains typeName ("unrecognized resource version " +:+ typeName) = true.
Proof.
  split; [| apply contains_app].
  unfold teleportStaticTokensMarshaler.Marshal, TypeOf, trace.BadParameter.
  rewrite Sprintf_unrecognized.
  destruct (CollectOptions opts); reflexivity.
Qed.

End Marshal.

(** C7 (as stated) fails: with an option that does not collect, [Marshal] on
    a value of another type returns the option's error, whose message says
    nothing of the type. *)
Lemma Marshal_unrecognized_type_after_options :
  ~ (forall (C : utils.Codec) (typeName : string) (opts : list MarshalOption)
            (h : gmap loc StaticTokensV2.t),
       exists message,
         teleportStaticTokensMarshaler.Marshal (OtherStaticTokens typeName) opts h =
           Some (Err (trace.TraceErr trace.BadParameterKind message), h) /\
         contains typeName message = true).
Proof.
  intros Hall.
  destruct (Hall Reference.codec "*types.customTokens" [Reference.unsupported] ∅)
    as (message & Hm & Hc).
  vm_compute in Hm. injection Hm as <-. vm_compute in Hc. discriminate.
Qed.

(** ** Round trips *)

Section RoundTrip.
Context `{!defaults.Process, !SchemaFragments, !utils.Codec}.

(** With no options the configuration is the zero one. *)
Lemma CollectOptions_nil : CollectOptions [] = Ok MarshalConfig.zero.
Proof. reflexivity. Qed.

(** With no options, [Marshal] encodes the resource with its ID stripped,
    and [Unmarshal] passes on what the validating decoder and the defaulting
    make of the data. *)
Lemma Marshal_then_Unmarshal
    (h : gmap loc StaticTokensV2.t) (p : loc) (r : StaticTokensV2.t) :
  h !! p = Some r ->
  valid r ->
  lossless_at (StaticTokensV2.SetResourceID r 0) ->
  exists data h',
    teleportStaticTokensMarshaler.Marshal (PtrStaticTokensV2 p) [] h =
      Some (Ok data, h') /\
    teleportStaticTokensMarshaler.Unmarshal data [] =
      Ok (StaticTokensV2.SetResourceID r 0).
Proof.
  intros Hp Hvalid (data & Henc & Hdata & Hdec).
  exists data, (<[fresh (dom h) := StaticTokensV2.SetResourceID r 0]> h). split.
  - rewrite (Marshal_StaticTokensV2 h p r [] _ Hp CollectOptions_nil).
    cbn [MarshalConfig.PreserveResourceID MarshalConfig.zero]. congruence.
  - rewrite (Unmarshal_success data [] MarshalConfig.zero
               (StaticTokensV2.SetResourceID r 0) (StaticTokensV2.SetResourceID r 0));
      try assumption; try reflexivity.
    apply valid_SetResourceID, Hvalid.
Qed.

(** C2: the round trip. For a valid resource [r] held at [p], at which the
    encoding routines are lossless once its ID is stripped, [Marshal] with no
    options returns data from which [Unmarshal] with no options reads back a
    resource with the resource ID at zero and every other field as in [r]. *)
Theorem Marshal_Unmarshal_roundtrip
    (h : gmap loc StaticTokensV2.t) (p : loc) (r : StaticTokensV2.t) :
  h !! p = Some r ->
  valid r ->
  lossless_at (StaticTokensV2.SetResourceID r 0) ->
  exists data h' r',
    teleportStaticTokensMarshaler.Marshal (PtrStaticTokensV2 p) [] h =
      Some (Ok data, h') /\
    teleportStaticTokensMarshaler.Unmarshal data [] = Ok r' /\
    StaticTokensV2.GetResourceID r' = 0 /\
    StaticTokensV2.Kind r' = StaticTokensV2.Kind r /\
    StaticTokensV2.SubKind r' = StaticTokensV2.SubKind r /\
    StaticTokensV2.Version r' = StaticTokensV2.Version r /\
    StaticTokensV2.GetName r' = StaticTokensV2.GetName r /\
    Metadata.Namespace (StaticTokensV2.Metadata r') =
      Metadata.Namespace (StaticTokensV2.Metadata r) /\
    StaticTokensV2.Expiry r' = StaticTokensV2.Expiry r /\
    StaticTokensV2.Spec r' = StaticTokensV2.Spec r.
Proof.
  intros Hp Hvalid Hlossless.
  destruct (Marshal_then_Unmarshal h p r Hp Hvalid Hlossless)
    as (data & h' & Hm & Hu).
  exists data, h', (StaticTokensV2.SetResourceID r 0).
  repeat split; assumption.
Qed.

(** The struct both constructors build. *)
Lemma NewStaticTokens_eq (spec : StaticTokensSpecV2.t) :
  NewStaticTokens spec =
  Ok (StaticTokensV2.mk KindStaticTokens "" V2
        (Metadata.mk MetaNameStaticTokens defaults.Namespace 0 0) spec).
Proof.
  unfold NewStaticTokens, StaticTokensV2.CheckAndSetDefaults,
    Metadata.CheckAndSetDefaults.
  cbn [StaticTokensV2.Metadata StaticTokensV2.Kind StaticTokensV2.SubKind
    StaticTokensV2.Version StaticTokensV2.Spec Metadata.Name Metadata.Namespace
    Metadata.Expires Metadata.ID].
  destruct (String.eqb_spec defaults.Namespace "") as [Hd | Hd];
    cbn; [rewrite Hd |]; reflexivity.
Qed.

Lemma DefaultStaticTokens_valid : valid DefaultStaticTokens.
Proof. apply valid_iff. split; [discriminate | tauto]. Qed.

(** C8: the constructors and the round trip of the empty list.
    [NewStaticTokens] on the empty list returns the struct
    [DefaultStaticTokens] returns; a resource that [NewStaticTokens] returns
    is the state a successful [CheckAndSetDefaults] left (when the check
    fails an error is returned and no resource) and is valid; and where the
    encoding routines are lossless at that struct, marshaling and
    unmarshaling it with no options yields a resource of kind
    [static_tokens], version [v2], name [static_tokens], in the default
    namespace, with no entries. *)
Theorem NewStaticTokens_roundtrip :
  NewStaticTokens (StaticTokensSpecV2.mk []) = Ok DefaultStaticTokens /\
  (forall spec c,
     NewStaticTokens spec = Ok c ->
     valid c /\
     exists st, StaticTokensV2.Spec st = spec /\
                StaticTokensV2.CheckAndSetDefaults st = (c, None)) /\
  (forall (h : gmap loc StaticTokensV2.t) (p : loc),
     h !! p = Some DefaultStaticTokens ->
     lossless_at DefaultStaticTokens ->
     exists data h' r,
       teleportStaticTokensMarshaler.Marshal (PtrStaticTokensV2 p) [] h =
         Some (Ok data, h') /\
       teleportStaticTokensMarshaler.Unmarshal data [] = Ok r /\
       StaticTokensV2.GetKind r = "static_tokens" /\
       StaticTokensV2.GetVersion r = "v2" /\
       StaticTokensV2.GetName r = "static_tokens" /\
       Metadata.Namespace (StaticTokensV2.GetMetadata r) = defaults.Namespace /\
       StaticTokensSpecV2.StaticTokens (StaticTokensV2.Spec r) = []).
Proof.
  split; [apply NewStaticTokens_eq |]. split.
  - intros spec c Hc. split.
    + rewrite NewStaticTokens_eq in Hc. injection Hc as <-.
      apply valid_iff. split; [discriminate | tauto].
    + unfold NewStaticTokens in Hc.
      match type of Hc with context [StaticTokensV2.CheckAndSetDefaults ?s] =>
        exists s; destruct (StaticTokensV2.CheckAndSetDefaults s) as [c' [e |]]
      end; [discriminate |].
      injection Hc as ->. split; reflexivity.
  - intros h p Hp Hlossless.
    destruct (Marshal_then_Unmarshal h p DefaultStaticTokens Hp
                DefaultStaticTokens_valid Hlossless) as (data & h' & Hm & Hu).
    exists data, h', DefaultStaticTokens. repeat split; assumption.
Qed.

End RoundTrip.

(** ** The marshaler registry *)

Section RegistryInvariant.
Import Registry.
Variable d : StaticTokensMarshaler.

(** A goroutine that can move has not returned. *)
Lemma instr_not_SetDone at_ locked v x m :
  instr at_ locked v = Some x -> at_ <> SetDone m.
Proof. intros Hi ->. discriminate. Qed.

(** What has been installed stays installed. *)
Lemma installed_step (gs : list pc) i at_ locked v x at' m :
  gs !! i = Some at_ ->
  instr at_ locked v = Some x ->
  installed d gs m ->
  installed d (<[i := at']> gs) m.
Proof.
  intros Hi Hstep [-> | [j Hj]]; [left; reflexivity | right].
  exists j. rewrite list_lookup_insert_ne; [assumption |].
  intros <-. rewrite Hi in Hj. injection Hj as ->. discriminate.
Qed.

(** The argument of a call that has just returned is installed. *)
Lemma installed_SetDone (gs : list pc) i at_ m :
  gs !! i = Some at_ ->
  installed d (<[i := SetDone m]> gs) m.
Proof.
  intros Hi. right. exists i.
  apply list_lookup_insert_eq. eapply lookup_lt_Some, Hi.
Qed.

(** A goroutine between its lock and its unlock is the one holding the
    lock. *)
Lemma holder s i at_ :
  Inv d s ->
  goroutines s !! i = Some at_ ->
  holds_lock at_ = true ->
  marshalerMutex s = true /\
  holder_ok d (goroutines s) (staticTokensMarshaler s) at_ /\
  forall j at', goroutines s !! j = Some at' -> holds_lock at' = true -> j = i.
Proof.
  intros HI Hi Hh.
  destruct (marshalerMutex s) eqn:Hm.
  - destruct (inv_held d s HI Hm) as (k & atk & Hk & Hok & Huniq).
    assert (i = k) as -> by (eapply Huniq; eassumption).
    rewrite Hi in Hk. injection Hk as <-. auto.
  - destruct (inv_free d s HI Hm) as [_ Hnone].
    rewrite (Hnone i at_ Hi) in Hh. discriminate.
Qed.

Lemma Inv_init (calls : list call) : Inv d (init d calls).
Proof.
  split; cbn [init goroutines marshalerMutex staticTokensMarshaler].
  - intros i r Hi. rewrite list_lookup_fmap in Hi.
    destruct (calls !! i) as [[m |] |]; discriminate.
  - intros _. split; [left; reflexivity |].
    intros i at_ Hi. rewrite list_lookup_fmap in Hi.
    destruct (calls !! i) as [[m |] |]; cbn in Hi; try discriminate;
      injection Hi as <-; reflexivity.
  - discriminate.
Qed.

(** After goroutine [i] has moved to [at'], the goroutines at a point that
    holds the lock are those that were, and [i] if [at'] is such a point. *)
Lemma lookup_moved (gs : list pc) i at' j atj :
  <[i := at']> gs !! j = Some atj ->
  (j = i /\ atj = at') \/ (j <> i /\ gs !! j = Some atj).
Proof.
  intros Hj. destruct (decide (i = j)) as [-> | Hne].
  - left. split; [reflexivity |].
    pose proof (lookup_lt_Some _ _ _ Hj) as Hlt. rewrite length_insert in Hlt.
    rewrite list_lookup_insert_eq in Hj by exact Hlt. congruence.
  - right. rewrite list_lookup_insert_ne in Hj by assumption. auto.
Qed.

(** The results obtained so far stay results of installed marshalers. *)
Lemma results_step (s : state) i at_ x at' :
  Inv d s ->
  goroutines s !! i = Some at_ ->
  instr at_ (marshalerMutex s) (staticTokensMarshaler s) = Some x ->
  (forall r, at' = GetDone r -> installed d (goroutines s) r) ->
  forall j r,
    <[i := at']> (goroutines s) !! j = Some (GetDone r) ->
    installed d (<[i := at']> (goroutines s)) r.
Proof.
  intros HI Hi Hstep Hnew j r Hj.
  eapply installed_step; [exact Hi | exact Hstep |].
  destruct (lookup_moved _ _ _ _ _ Hj) as [[-> Heq] | [Hne Hold]].
  - apply Hnew. congruence.
  - eapply inv_results; eassumption.
Qed.

(** Each step keeps the invariant. *)
Lemma Inv_step (s s' : state) (i : nat) :
  Inv d s -> step i s = Some s' -> Inv d s'.
Proof.
  intros HI Hstep. unfold step in Hstep.
  destruct (goroutines s !! i) as [at_ |] eqn:Hi; [| discriminate].
  destruct (instr at_ (marshalerMutex s) (staticTokensMarshaler s))
    as [[[at' locked] v] |] eqn:Hinstr; [| discriminate].
  injection Hstep as <-.
  assert (Hmono : forall m, installed d (goroutines s) m ->
                            installed d (<[i := at']> (goroutines s)) m)
    by (intros m0; eapply installed_step; eassumption).
  destruct at_ as [m | m | m | m | m | | | t | r | r]; cbn [instr] in Hinstr;
    try discriminate.
  - (* SetLock: the lock is taken *)
    destruct (marshalerMutex s) eqn:Hm; [discriminate |].
    injection Hinstr as <- <- <-.
    destruct (inv_free d s HI Hm) as [Hv Hnone].
    split; cbn [goroutines marshalerMutex staticTokensMarshaler].
    + eapply results_step; try eassumption. cbn [instr]. rewrite Hm. reflexivity.
      discriminate.
    + discriminate.
    + intros _. exists i, (SetWriteTab m). split; [| split].
      * apply list_lookup_insert_eq. eapply lookup_lt_Some, Hi.
      * exact I.
      * intros j atj Hj Hh.
        destruct (lookup_moved _ _ _ _ _ Hj) as [[-> _] | [_ Hold]];
          [reflexivity |].
        rewrite (Hnone j atj Hold) in Hh. discriminate.
  - (* SetWriteTab: the first word is written *)
    injection Hinstr as <- <- <-.
    destruct (holder s i _ HI Hi eq_refl) as (Hm & Hok & Huniq).
    split; cbn [goroutines marshalerMutex staticTokensMarshaler].
    + eapply results_step; try eassumption. reflexivity. discriminate.
    + congruence.
    + intros _. exists i, (SetWriteData m). split; [| split].
      * apply list_lookup_insert_eq. eapply lookup_lt_Some, Hi.
      * reflexivity.
      * intros j atj Hj Hh.
        destruct (lookup_moved _ _ _ _ _ Hj) as [[-> _] | [_ Hold]];
          [reflexivity | eauto].
  - (* SetWriteData: the second word is written *)
    injection Hinstr as <- <- <-.
    destruct (holder s i _ HI Hi eq_refl) as (Hm & Hok & Huniq).
    cbn [holder_ok] in Hok.
    split; cbn [goroutines marshalerMutex staticTokensMarshaler].
    + eapply results_step; try eassumption. reflexivity. discriminate.
    + congruence.
    + intros _. exists i, (SetUnlock m). split; [| split].
      * apply list_lookup_insert_eq. eapply lookup_lt_Some, Hi.
      * cbn [holder_ok]. rewrite Hok. destruct m; reflexivity.
      * intros j atj Hj Hh.
        destruct (lookup_moved _ _ _ _ _ Hj) as [[-> _] | [_ Hold]];
          [reflexivity | eauto].
  - (* SetUnlock: the lock is released, the call returns *)
    injection Hinstr as <- <- <-.
    destruct (holder s i _ HI Hi eq_refl) as (Hm & Hok & Huniq).
    cbn [holder_ok] in Hok.
    split; cbn [goroutines marshalerMutex staticTokensMarshaler].
    + eapply results_step; try eassumption. reflexivity. discriminate.
    + intros _. split.
      * rewrite Hok. eapply installed_SetDone, Hi.
      * intros j atj Hj.
        destruct (lookup_moved _ _ _ _ _ Hj) as [[-> ->] | [Hne Hold]];
          [reflexivity |].
        destruct (holds_lock atj) eqn:Hh; [| reflexivity].
        exfalso. apply Hne. eauto.
    + discriminate.
  - (* GetLock: the lock is taken *)
    destruct (marshalerMutex s) eqn:Hm; [discriminate |].
    injection Hinstr as <- <- <-.
    destruct (inv_free d s HI Hm) as [Hv Hnone].
    split; cbn [goroutines marshalerMutex staticTokensMarshaler].
    + eapply results_step; try eassumption. cbn [instr]. rewrite Hm. reflexivity.
      discriminate.
    + discriminate.
    + intros _. exists i, GetReadTab. split; [| split].
      * apply list_lookup_insert_eq. eapply lookup_lt_Some, Hi.
      * cbn [holder_ok]. apply Hmono, Hv.
      * intros j atj Hj Hh.
        destruct (lookup_moved _ _ _ _ _ Hj) as [[-> _] | [_ Hold]];
          [reflexivity |].
        rewrite (Hnone j atj Hold) in Hh. discriminate.
  - (* GetReadTab: the first word is read *)
    injection Hinstr as <- <- <-.
    destruct (holder s i _ HI Hi eq_refl) as (Hm & Hok & Huniq).
    cbn [holder_ok] in Hok.
    split; cbn [goroutines marshalerMutex staticTokensMarshaler].
    + eapply results_step; try eassumption. reflexivity. discriminate.
    + congruence.
    + intros _. exists i, (GetReadData (tab (staticTokensMarshaler s))).
      split; [| split].
      * apply list_lookup_insert_eq. eapply lookup_lt_Some, Hi.
      * cbn [holder_ok]. split; [apply Hmono, Hok | reflexivity].
      * intros j atj Hj Hh.
        destruct (lookup_moved _ _ _ _ _ Hj) as [[-> _] | [_ Hold]];
          [reflexivity | eauto].
  - (* GetReadData: the second word is read *)
    injection Hinstr as <- <- <-.
    destruct (holder s i _ HI Hi eq_refl) as (Hm & Hok & Huniq).
    cbn [holder_ok] in Hok. destruct Hok as [Hv ->].
    split; cbn [goroutines marshalerMutex staticTokensMarshaler].
    + eapply results_step; try eassumption. reflexivity. discriminate.
    + congruence.
    + intros _. eexists i, _. split; [| split].
      * apply list_lookup_insert_eq. eapply lookup_lt_Some, Hi.
      * cbn [holder_ok]. split; [apply Hmono, Hv |].
        destruct (staticTokensMarshaler s); reflexivity.
      * intros j atj Hj Hh.
        destruct (lookup_moved _ _ _ _ _ Hj) as [[-> _] | [_ Hold]];
          [reflexivity | eauto].
  - (* GetUnlock: the lock is released, the call returns its result *)
    injection Hinstr as <- <- <-.
    destruct (holder s i _ HI Hi eq_refl) as (Hm & Hok & Huniq).
    cbn [holder_ok] in Hok. destruct Hok as [Hv ->].
    split; cbn [goroutines marshalerMutex staticTokensMarshaler].
    + eapply results_step; try eassumption. reflexivity.
      intros r' [= <-]. exact Hv.
    + intros _. split.
      * apply Hmono, Hv.
      * intros j atj Hj.
        destruct (lookup_moved _ _ _ _ _ Hj) as [[-> ->] | [Hne Hold]];
          [reflexivity |].
        destruct (holds_lock atj) eqn:Hh; [| reflexivity].
        exfalso. apply Hne. eauto.
    + discriminate.
Qed.

Lemma Inv_run (schedule : list nat) (s : state) :
  Inv d s -> Inv d (run schedule s).
Proof.
  revert s. induction schedule as [| i schedule IH]; intros s HI; [exact HI |].
  cbn [run]. apply IH.
  destruct (step i s) as [s' |] eqn:Hstep; cbn [default];
    [eapply Inv_step; eassumption | exact HI].
Qed.

End RegistryInvariant.


(** * The properties at work on the reference instance *)

(** The data carry resource ID 7; decoding them with the ID option at 42
    yields resource ID 42. *)
Lemma Unmarshal_ID_override_witness :
  exists r,
    @teleportStaticTokensMarshaler.Unmarshal
      Reference.process Reference.fragments Reference.codec
      (Reference.encode Reference.sample) [WithResourceID 42] = Ok r /\
    StaticTokensV2.GetResourceID r = 42 /\
    r = StaticTokensV2.SetResourceID Reference.sample 42.
Proof.
  refine (@Unmarshal_ID_override
            Reference.process Reference.fragments Reference.codec
            (Reference.encode Reference.sample) [WithResourceID 42]
            Reference.cfg_id42 Reference.sample Reference.sample _ _ _ _ _).
  - vm_compute. discriminate.
  - reflexivity.
  - vm_compute. discriminate.
  - vm_compute. reflexivity.
  - vm_compute. reflexivity.
Defined.

(** Zero-valued options on the fast path: the resource keeps ID 7 and its
    expiry. *)
Lemma Unmarshal_zero_overrides_ignored_witness :
  exists r,
    @teleportStaticTokensMarshaler.Unmarshal
      Reference.process Reference.fragments Reference.codec
      (Reference.encode Reference.sample)
      [SkipValidation; WithResourceID 0; WithExpires 0] = Ok r /\
    (MarshalConfig.ID Reference.cfg_zeros = 0 ->
     StaticTokensV2.GetResourceID r = 7) /\
    (time.IsZero (MarshalConfig.Expires Reference.cfg_zeros) = true ->
     StaticTokensV2.Expiry r = 0) /\
    (MarshalConfig.ID Reference.cfg_zeros = 0 ->
     time.IsZero (MarshalConfig.Expires Reference.cfg_zeros) = true ->
     r = Reference.sample).
Proof.
  refine (@Unmarshal_zero_overrides_ignored
            Reference.process Reference.fragments Reference.codec
            (Reference.encode Reference.sample)
            [SkipValidation; WithResourceID 0; WithExpires 0]
            Reference.cfg_zeros Reference.sample Reference.sample _ _ _ _).
  - vm_compute. discriminate.
  - reflexivity.
  - vm_compute. reflexivity.
  - vm_compute. reflexivity.
Defined.

(** Marshaling [sample] leaves it at its address with resource ID 7; what
    is encoded has resource ID 0. *)
Lemma Marshal_leaves_resource_unchanged_witness :
  Reference.sample_heap !! 1%positive = Some Reference.sample /\
  StaticTokensV2.GetResourceID Reference.sample = 7 /\
  exists res h',
    @teleportStaticTokensMarshaler.Marshal Reference.codec
      (PtrStaticTokensV2 1%positive) [] Reference.sample_heap = Some (res, h') /\
    h' !! 1%positive = Some Reference.sample /\
    (forall q v, Reference.sample_heap !! q = Some v -> h' !! q = Some v) /\
    (forall cfg,
       CollectOptions [] = Ok cfg ->
       MarshalConfig.PreserveResourceID cfg = false ->
       exists copy encoded,
         Reference.sample_heap !! copy = None /\
         h' = <[copy := encoded]> Reference.sample_heap /\
         res = @utils.FastMarshal Reference.codec encoded /\
         StaticTokensV2.GetResourceID encoded = 0 /\
         StaticTokensV2.Kind encoded = StaticTokensV2.Kind Reference.sample /\
         StaticTokensV2.SubKind encoded = StaticTokensV2.SubKind Reference.sample /\
         StaticTokensV2.Version encoded = StaticTokensV2.Version Reference.sample /\
         StaticTokensV2.GetName encoded = StaticTokensV2.GetName Reference.sample /\
         Metadata.Namespace (StaticTokensV2.Metadata encoded) =
           Metadata.Namespace (StaticTokensV2.Metadata Reference.sample) /\
         StaticTokensV2.Expiry encoded = StaticTokensV2.Expiry Reference.sample /\
         StaticTokensV2.Spec encoded = StaticTokensV2.Spec Reference.sample).
Proof.
  assert (H1 : Reference.sample_heap !! 1%positive = Some Reference.sample)
    by (vm_compute; reflexivity).
  split; [exact H1 |]. split; [reflexivity |].
  exact (@Marshal_leaves_resource_unchanged Reference.codec
           Reference.sample_heap 1%positive Reference.sample [] H1).
Defined.

Lemma Reference_lossless_sample :
  @lossless_at Reference.fragments Reference.codec
    (StaticTokensV2.SetResourceID Reference.sample 0).
Proof.
  exists (Reference.encode (StaticTokensV2.SetResourceID Reference.sample 0)).
  split; [reflexivity |]. split; [vm_compute; discriminate |].
  vm_compute. reflexivity.
Defined.

Lemma Reference_lossless_default :
  @lossless_at Reference.fragments Reference.codec
    (@DefaultStaticTokens Reference.process).
Proof.
  exists (Reference.encode (@DefaultStaticTokens Reference.process)).
  split; [reflexivity |]. split; [vm_compute; discriminate |].
  vm_compute. reflexivity.
Defined.

(** The round trip of [sample]: resource ID 7 comes back as 0. *)
Lemma Marshal_Unmarshal_roundtrip_witness :
  exists data h' r',
    @teleportStaticTokensMarshaler.Marshal Reference.codec
      (PtrStaticTokensV2 1%positive) [] Reference.sample_heap = Some (Ok data, h') /\
    @teleportStaticTokensMarshaler.Unmarshal
      Reference.process Reference.fragments Reference.codec data [] = Ok r' /\
    StaticTokensV2.GetResourceID r' = 0 /\
    StaticTokensV2.Kind r' = StaticTokensV2.Kind Reference.sample /\
    StaticTokensV2.SubKind r' = StaticTokensV2.SubKind Reference.sample /\
    StaticTokensV2.Version r' = StaticTokensV2.Version Reference.sample /\
    StaticTokensV2.GetName r' = StaticTokensV2.GetName Reference.sample /\
    Metadata.Namespace (StaticTokensV2.Metadata r') =
      Metadata.Namespace (StaticTokensV2.Metadata Reference.sample) /\
    StaticTokensV2.Expiry r' = StaticTokensV2.Expiry Reference.sample /\
    StaticTokensV2.Spec r' = StaticTokensV2.Spec Reference.sample.
Proof.
  refine (@Marshal_Unmarshal_roundtrip
            Reference.process Reference.fragments Reference.codec
            Reference.sample_heap 1%positive Reference.sample _ _ Reference_lossless_sample).
  - vm_compute. reflexivity.
  - vm_compute. reflexivity.
Defined.

(** The round trip of the default resource on the reference instance. *)
Lemma NewStaticTokens_roundtrip_witness :
  exists data h' r,
    @teleportStaticTokensMarshaler.Marshal Reference.codec
      (PtrStaticTokensV2 1%positive) []
      {[ 1%positive := @DefaultStaticTokens Reference.process ]} =
      Some (Ok data, h') /\
    @teleportStaticTokensMarshaler.Unmarshal
      Reference.process Reference.fragments Reference.codec data [] = Ok r /\
    StaticTokensV2.GetKind r = "static_tokens" /\
    StaticTokensV2.GetVersion r = "v2" /\
    StaticTokensV2.GetName r = "static_tokens" /\
    Metadata.Namespace (StaticTokensV2.GetMetadata r) = "default" /\
    StaticTokensSpecV2.StaticTokens (StaticTokensV2.Spec r) = [].
Proof.
  refine (proj2 (proj2 (@NewStaticTokens_roundtrip
            Reference.process Reference.fragments Reference.codec))
            {[ 1%positive := @DefaultStaticTokens Reference.process ]} 1%positive
            _ Reference_lossless_default).
  vm_compute. reflexivity.
Defined.


(** * Further properties *)

(** ** Unmarshal: when it returns a resource, and which errors it returns *)



(** Wrapping keeps the class of an error. *)
Lemma IsBadParameter_Wrap (e : trace.error) :
  trace.IsBadParameter (trace.Wrap e) = trace.IsBadParameter e.
Proof. destruct e; reflexivity. Qed.

Section UnmarshalMore.
Context `{!defaults.Process, !SchemaFragments, !utils.Codec}.

(** X1: [Unmarshal] returns a resource exactly when the data is not empty,
    the options collect, the decoder selected by [SkipValidation] accepts the
    data and [CheckAndSetDefaults] accepts what was decoded; the resource is
    then the defaulted one with the overrides applied. Nothing partly decoded
    or not defaulted is ever returned. *)
Theorem Unmarshal_Ok_iff data opts r :
  teleportStaticTokensMarshaler.Unmarshal data opts = Ok r <->
  exists cfg st st',
    data <> [] /\ CollectOptions opts = Ok cfg /\ decodeWith cfg data = Ok st /\
    StaticTokensV2.CheckAndSetDefaults st = (st', None) /\ r = overrides cfg st'.
Proof.
  split; [apply Unmarshal_Ok_inv |].
  intros (cfg & st & st' & Hdata & Hcfg & Hdec & Hchk & ->).
  eapply Unmarshal_success; eassumption.
Qed.

(** The formatter on the texts of decoders that do hold a percent sign:
    what follows the sign is read as a verb that has no operand. *)
Example Sprintf_percent_in_message :
  fmt.Sprintf "invalid character '%' looking for beginning of value" [] =
    "invalid character '%!'(MISSING) looking for beginning of value" /\
  fmt.Sprintf "%d" [] = "%!d(MISSING)" /\
  fmt.Sprintf "100%" [] = "100%!(NOVERB)".
Proof. repeat split; vm_compute; reflexivity. Qed.


(** X3: the errors of option collection and of defaulting are passed on
    wrapped, not reclassified: on non-empty data [Unmarshal] returns the
    collection's error when the options do not collect, and the error of
    [CheckAndSetDefaults] when the decoded resource does not pass, each with
    the class it had. *)
Theorem Unmarshal_passes_errors_on data opts :
  data <> [] ->
  (forall e,
     CollectOptions opts = Err e ->
     teleportStaticTokensMarshaler.Unmarshal data opts = Err (trace.Wrap e) /\
     trace.IsBadParameter (trace.Wrap e) = trace.IsBadParameter e) /\
  (forall cfg st st' e,
     CollectOptions opts = Ok cfg ->
     decodeWith cfg data = Ok st ->
     StaticTokensV2.CheckAndSetDefaults st = (st', Some e) ->
     teleportStaticTokensMarshaler.Unmarshal data opts = Err (trace.Wrap e) /\
     trace.IsBadParameter (trace.Wrap e) = trace.IsBadParameter e).
Proof.
  intros Hdata. unfold teleportStaticTokensMarshaler.Unmarshal.
  destruct data as [| b data]; [congruence |]. cbn [length Nat.eqb].
  split.
  - intros e Hcfg. rewrite Hcfg. split; [reflexivity | apply IsBadParameter_Wrap].
  - intros cfg st st' e Hcfg Hdec Hchk. rewrite Hcfg. unfold decodeWith in Hdec.
    split; [| apply IsBadParameter_Wrap].
    destruct (MarshalConfig.SkipValidation cfg); rewrite Hdec, Hchk; reflexivity.
Qed.

(** X4: a non-zero [Expires] option wins over the expiry the data carried,
    whatever the [ID] option does to the resource ID. *)
Theorem Unmarshal_Expires_override data opts cfg st st' :
  data <> [] ->
  CollectOptions opts = Ok cfg ->
  time.IsZero (MarshalConfig.Expires cfg) = false ->
  decodeWith cfg data = Ok st ->
  StaticTokensV2.CheckAndSetDefaults st = (st', None) ->
  exists r,
    teleportStaticTokensMarshaler.Unmarshal data opts = Ok r /\
    StaticTokensV2.Expiry r = MarshalConfig.Expires cfg /\
    StaticTokensV2.GetResourceID r =
      (if MarshalConfig.ID cfg =? 0 then StaticTokensV2.GetResourceID st'
       else MarshalConfig.ID cfg).
Proof.
  intros Hdata Hcfg Hexp Hdec Hchk.
  exists (overrides cfg st'). split; [eapply Unmarshal_success; eassumption |].
  unfold overrides. rewrite Hexp. cbn [negb].
  destruct (MarshalConfig.ID cfg =? 0); split; reflexivity.
Qed.

(** X5: what the decoder read for kind, sub-kind, version and payload is
    what [Unmarshal] returns: defaulting works on the metadata only, and the
    overrides on the resource ID and the expiry only. *)
Theorem Unmarshal_keeps_decoded_payload data opts r :
  teleportStaticTokensMarshaler.Unmarshal data opts = Ok r ->
  exists cfg st,
    CollectOptions opts = Ok cfg /\ decodeWith cfg data = Ok st /\
    StaticTokensV2.GetKind r = StaticTokensV2.GetKind st /\
    StaticTokensV2.GetSubKind r = StaticTokensV2.GetSubKind st /\
    StaticTokensV2.GetVersion r = StaticTokensV2.GetVersion st /\
    StaticTokensV2.Spec r = StaticTokensV2.Spec st.
Proof.
  intros Hr.
  destruct (Unmarshal_Ok_inv data opts r Hr)
    as (cfg & st & st' & _ & Hcfg & Hdec & Hchk & ->).
  exists cfg, st. split; [exact Hcfg |]. split; [exact Hdec |].
  unfold StaticTokensV2.CheckAndSetDefaults in Hchk.
  destruct (Metadata.CheckAndSetDefaults (StaticTokensV2.Metadata st))
    as [m [e |]]; [discriminate |].
  injection Hchk as <-. unfold overrides.
  destruct (negb (MarshalConfig.ID cfg =? 0)),
    (negb (time.IsZero (MarshalConfig.Expires cfg))); repeat split.
Qed.

End UnmarshalMore.

(** X6: with [SkipValidation] neither the schema nor the validating decoder
    is consulted: two settings that differ in their schema fragments and in
    everything but what the fast decoder makes of the data give the same
    result. *)
Theorem Unmarshal_SkipValidation_bypasses_schema
    `{!defaults.Process} (F1 F2 : SchemaFragments) (C1 C2 : utils.Codec)
    data opts cfg :
  CollectOptions opts = Ok cfg ->
  MarshalConfig.SkipValidation cfg = true ->
  @utils.FastUnmarshal C1 data = @utils.FastUnmarshal C2 data ->
  @teleportStaticTokensMarshaler.Unmarshal _ F1 C1 data opts =
  @teleportStaticTokensMarshaler.Unmarshal _ F2 C2 data opts.
Proof.
  intros Hcfg Hskip Hfast. unfold teleportStaticTokensMarshaler.Unmarshal.
  rewrite Hcfg, Hskip, Hfast. reflexivity.
Qed.

(** ** Marshal: what the options change, and what the data never shows *)

Section MarshalMore.
Context `{!utils.Codec}.

(** X7: with [PreserveResourceID] the resource is encoded where it stands,
    resource ID included; nothing is copied and the heap is the one the call
    started from. *)
Theorem Marshal_PreserveResourceID
    (h : gmap loc StaticTokensV2.t) p r opts cfg :
  h !! p = Some r ->
  CollectOptions opts = Ok cfg ->
  MarshalConfig.PreserveResourceID cfg = true ->
  teleportStaticTokensMarshaler.Marshal (PtrStaticTokensV2 p) opts h =
    Some (utils.FastMarshal r, h).
Proof.
  intros Hp Hcfg Hpre.
  rewrite (Marshal_StaticTokensV2 h p r opts cfg Hp Hcfg), Hpre. reflexivity.
Qed.

(** X8: without [PreserveResourceID] the outcome of encoding does not depend
    on the resource ID: resources that differ in their ID only, wherever they
    are held, give the same data or the same error. *)
Theorem Marshal_hides_resource_ID
    (h1 h2 : gmap loc StaticTokensV2.t) p1 p2 r1 r2 opts cfg :
  h1 !! p1 = Some r1 ->
  h2 !! p2 = Some r2 ->
  StaticTokensV2.SetResourceID r1 0 = StaticTokensV2.SetResourceID r2 0 ->
  CollectOptions opts = Ok cfg ->
  MarshalConfig.PreserveResourceID cfg = false ->
  fst <$> teleportStaticTokensMarshaler.Marshal (PtrStaticTokensV2 p1) opts h1 =
  fst <$> teleportStaticTokensMarshaler.Marshal (PtrStaticTokensV2 p2) opts h2.
Proof.
  intros Hp1 Hp2 Heq Hcfg Hpre.
  rewrite (Marshal_StaticTokensV2 h1 p1 r1 opts cfg Hp1 Hcfg),
          (Marshal_StaticTokensV2 h2 p2 r2 opts cfg Hp2 Hcfg), Hpre, Heq.
  reflexivity.
Qed.

(** X9: of the options, [Marshal] looks at [PreserveResourceID] only: option
    lists that collect to configurations with the same [PreserveResourceID]
    give the same result and the same heap, for any value and any heap. The
    [ID] and [Expires] overrides are not applied when encoding. *)
Theorem Marshal_reads_PreserveResourceID_only
    (h : gmap loc StaticTokensV2.t) c opts1 opts2 cfg1 cfg2 :
  CollectOptions opts1 = Ok cfg1 ->
  CollectOptions opts2 = Ok cfg2 ->
  MarshalConfig.PreserveResourceID cfg1 = MarshalConfig.PreserveResourceID cfg2 ->
  teleportStaticTokensMarshaler.Marshal c opts1 h =
  teleportStaticTokensMarshaler.Marshal c opts2 h.
Proof.
  intros H1 H2 Hpre. unfold teleportStaticTokensMarshaler.Marshal.
  rewrite H1, H2, Hpre. reflexivity.
Qed.

End MarshalMore.

(** ** The constructor *)

(** X17: a resource that [NewStaticTokens] returns carries the payload it
    was given, entries and their order untouched, under the kind and version
    of static tokens and no sub-kind: the check it runs works on the metadata
    only. *)
Theorem NewStaticTokens_keeps_spec
    `{!defaults.Process} (spec : StaticTokensSpecV2.t) (c : StaticTokensV2.t) :
  NewStaticTokens spec = Ok c ->
  StaticTokensV2.Spec c = spec /\
  StaticTokensV2.GetKind c = KindStaticTokens /\
  StaticTokensV2.GetVersion c = V2 /\
  StaticTokensV2.GetSubKind c = "".
Proof.
  unfold NewStaticTokens, StaticTokensV2.CheckAndSetDefaults.
  cbn [StaticTokensV2.Metadata StaticTokensV2.Kind StaticTokensV2.SubKind
    StaticTokensV2.Version StaticTokensV2.Spec].
  destruct (Metadata.CheckAndSetDefaults _) as [m [e |]]; [discriminate |].
  intros [= <-]. repeat split.
Qed.

(** ** Round trips that keep the resource ID *)

Lemma SetResourceID_GetResourceID (r : StaticTokensV2.t) :
  StaticTokensV2.SetResourceID r (StaticTokensV2.GetResourceID r) = r.
Proof. destruct r as [k sk v [n ns e i] s]. reflexivity. Qed.

Lemma SetResourceID_twice (r : StaticTokensV2.t) (i j : Z) :
  StaticTokensV2.SetResourceID (StaticTokensV2.SetResourceID r i) j =
  StaticTokensV2.SetResourceID r j.
Proof. reflexivity. Qed.

Section RoundTripMore.
Context `{!defaults.Process, !SchemaFragments, !utils.Codec}.

(** X10: encoding with [PreserveResourceID] and decoding with no options
    gives the resource back as it was, resource ID included, for a valid
    resource at which the encoding routines are lossless. *)
Theorem Marshal_PreserveResourceID_roundtrip
    (h : gmap loc StaticTokensV2.t) p r opts cfg :
  h !! p = Some r ->
  valid r ->
  lossless_at r ->
  CollectOptions opts = Ok cfg ->
  MarshalConfig.PreserveResourceID cfg = true ->
  exists data,
    teleportStaticTokensMarshaler.Marshal (PtrStaticTokensV2 p) opts h =
      Some (Ok data, h) /\
    teleportStaticTokensMarshaler.Unmarshal data [] = Ok r.
Proof.
  intros Hp Hvalid (data & Henc & Hdata & Hdec) Hcfg Hpre.
  exists data. split.
  - rewrite (Marshal_StaticTokensV2 h p r opts cfg Hp Hcfg), Hpre. congruence.
  - apply (Unmarshal_success data [] MarshalConfig.zero r r);
      [assumption | reflexivity | exact Hdec | exact Hvalid].
Qed.

(** X11: the resource ID that [Marshal] strips is put back by the [ID]
    option: encoding with no options and decoding, validated, with the ID
    option at the resource's own ID and no expiry override gives the
    resource back as it was. *)
Theorem Marshal_Unmarshal_restores_ID
    (h : gmap loc StaticTokensV2.t) p r opts cfg :
  h !! p = Some r ->
  valid r ->
  lossless_at (StaticTokensV2.SetResourceID r 0) ->
  CollectOptions opts = Ok cfg ->
  MarshalConfig.SkipValidation cfg = false ->
  MarshalConfig.ID cfg = StaticTokensV2.GetResourceID r ->
  time.IsZero (MarshalConfig.Expires cfg) = true ->
  exists data h',
    teleportStaticTokensMarshaler.Marshal (PtrStaticTokensV2 p) [] h =
      Some (Ok data, h') /\
    teleportStaticTokensMarshaler.Unmarshal data opts = Ok r.
Proof.
  intros Hp Hvalid (data & Henc & Hdata & Hdec) Hcfg Hskip Hid Hexp.
  exists data, (<[fresh (dom h) := StaticTokensV2.SetResourceID r 0]> h). split.
  - rewrite (Marshal_StaticTokensV2 h p r [] _ Hp CollectOptions_nil).
    cbn [MarshalConfig.PreserveResourceID MarshalConfig.zero]. congruence.
  - rewrite (Unmarshal_success data opts cfg
               (StaticTokensV2.SetResourceID r 0) (StaticTokensV2.SetResourceID r 0)
               Hdata Hcfg).
    + unfold overrides. rewrite Hexp, Hid. cbn [negb].
      destruct (StaticTokensV2.GetResourceID r =? 0) eqn:Hz; cbn [negb].
      * apply Z.eqb_eq in Hz. rewrite <- Hz. f_equal.
        apply SetResourceID_GetResourceID.
      * rewrite SetResourceID_twice. f_equal. apply SetResourceID_GetResourceID.
    + unfold decodeWith. rewrite Hskip. exact Hdec.
    + apply valid_SetResourceID, Hvalid.
Qed.

End RoundTripMore.

(** ** The registry: calls return, and a call alone does what it says *)

Lemma step_at locked v (gs : list Registry.pc) i at_ at' locked' v' :
  gs !! i = Some at_ ->
  Registry.instr at_ locked v = Some (at', locked', v') ->
  Registry.step i (Registry.mkState locked v gs) =
  Some (Registry.mkState locked' v' (<[i := at']> gs)).
Proof.
  intros Hi Hinstr. unfold Registry.step.
  cbn [Registry.goroutines Registry.marshalerMutex Registry.staticTokensMarshaler].
  rewrite Hi, Hinstr. reflexivity.
Qed.

Lemma run_move i schedule s s' :
  Registry.step i s = Some s' ->
  Registry.run (i :: schedule) s = Registry.run schedule s'.
Proof. intros Hstep. cbn [Registry.run]. rewrite Hstep. reflexivity. Qed.

(** A call that starts with the lock free and runs without interference. *)
Lemma run_alone (s : Registry.state) (i : nat) (c : Registry.call) :
  Registry.marshalerMutex s = false ->
  Registry.goroutines s !! i = Some (Registry.start c) ->
  Registry.run [i; i; i; i] s =
  Registry.mkState false (effect c (Registry.staticTokensMarshaler s))
    (<[i := outcome c (Registry.staticTokensMarshaler s)]> (Registry.goroutines s)).
Proof.
  destruct s as [locked [t w] gs]. cbn [Registry.marshalerMutex
    Registry.staticTokensMarshaler Registry.goroutines].
  intros -> Hi. pose proof (lookup_lt_Some _ _ _ Hi) as Hlt.
  assert (Hat : forall (l : list Registry.pc) at_,
            length l = length gs -> <[i := at_]> l !! i = Some at_)
    by (intros l at_ Hl; apply list_lookup_insert_eq; rewrite Hl; exact Hlt).
  destruct c as [[t' w'] |]; cbn [Registry.start effect outcome] in *;
    do 4 (erewrite run_move;
          [| eapply step_at;
             [first [exact Hi | apply Hat; rewrite ?length_insert; reflexivity]
             | reflexivity]];
          rewrite ?list_insert_insert_eq);
    reflexivity.
Qed.

(** X12: a call run on its own from a state where the lock is free takes
    four steps and returns with the lock free again.
    [SetStaticTokensMarshaler(m)] leaves [m] in the variable;
    [GetStaticTokensMarshaler()] returns what the variable holds and leaves
    it there. No other goroutine is touched. *)
Theorem call_alone (s : Registry.state) (i : nat) (c : Registry.call) :
  Registry.marshalerMutex s = false ->
  Registry.goroutines s !! i = Some (Registry.start c) ->
  let s' := Registry.run [i; i; i; i] s in
  Registry.marshalerMutex s' = false /\
  Registry.staticTokensMarshaler s' =
    effect c (Registry.staticTokensMarshaler s) /\
  Registry.goroutines s' !! i =
    Some (outcome c (Registry.staticTokensMarshaler s)) /\
  forall j, j <> i ->
    Registry.goroutines s' !! j = Registry.goroutines s !! j.
Proof.
  intros Hm Hi s'. subst s'. rewrite (run_alone s i c Hm Hi).
  cbn [Registry.marshalerMutex Registry.staticTokensMarshaler Registry.goroutines].
  repeat split.
  - apply list_lookup_insert_eq. eapply lookup_lt_Some, Hi.
  - intros j Hj. apply list_lookup_insert_ne. congruence.
Qed.

(** A goroutine between its lock and its unlock can always move. *)
Lemma holder_moves (at_ : Registry.pc) locked v :
  Registry.holds_lock at_ = true ->
  is_Some (Registry.instr at_ locked v).
Proof. destruct at_; try discriminate; intros _; eexists; reflexivity. Qed.

(** X13: no deadlock. In every state the calls can reach, if some call has
    not returned then some goroutine can take a step. *)
Theorem registry_no_deadlock
    (d : Registry.StaticTokensMarshaler) (calls : list Registry.call)
    (schedule : list nat) (i : nat) (at_ : Registry.pc) :
  let s := Registry.run schedule (Registry.init d calls) in
  Registry.goroutines s !! i = Some at_ ->
  returned at_ = false ->
  exists j s', Registry.step j s = Some s'.
Proof.
  intros s Hi Hret.
  pose proof (Inv_run d schedule _ (Inv_init d calls)) as HI. fold s in HI.
  destruct (Registry.marshalerMutex s) eqn:Hm.
  - destruct (Registry.inv_held d s HI Hm) as (k & atk & Hk & Hok & _).
    assert (Hh : Registry.holds_lock atk = true)
      by (destruct atk; cbn in Hok; try contradiction; reflexivity).
    destruct (holder_moves atk (Registry.marshalerMutex s)
                (Registry.staticTokensMarshaler s) Hh) as [[[at' l] v] Hstep].
    exists k. unfold Registry.step. rewrite Hk, Hstep. eexists; reflexivity.
  - destruct (Registry.inv_free d s HI Hm) as [_ Hnone].
    pose proof (Hnone i at_ Hi) as Hh.
    exists i. unfold Registry.step. rewrite Hi, Hm.
    destruct at_; try discriminate; eexists; reflexivity.
Qed.

(** Each move takes one step off the work that is left. *)
Lemma step_work (s s' : Registry.state) (i : nat) :
  Registry.step i s = Some s' -> S (work s') = work s.
Proof.
  unfold Registry.step, work. intros Hstep.
  destruct (Registry.goroutines s !! i) as [at_ |] eqn:Hi; [| discriminate].
  destruct (Registry.instr at_ (Registry.marshalerMutex s)
              (Registry.staticTokensMarshaler s))
    as [[[at' locked] v] |] eqn:Hinstr; [| discriminate].
  injection Hstep as <-. cbn [Registry.goroutines].
  assert (Hrem : S (remaining at') = remaining at_).
  { destruct at_; cbn [Registry.instr] in Hinstr;
      try destruct (Registry.marshalerMutex s); try discriminate;
      injection Hinstr as <- _ _; reflexivity. }
  clear Hinstr. revert i Hi.
  induction (Registry.goroutines s) as [| a gs IH]; intros [| i] Hi;
    try discriminate; cbn in Hi; cbn.
  - injection Hi as ->. rewrite <- Hrem. reflexivity.
  - rewrite <- (IH i Hi), Nat.add_succ_r. reflexivity.
Qed.

Lemma moves_work (schedule : list nat) (s : Registry.state) :
  (moves schedule s + work (Registry.run schedule s))%nat = work s.
Proof.
  revert s. induction schedule as [| i schedule IH]; intros s; [reflexivity |].
  cbn [moves Registry.run].
  destruct (Registry.step i s) as [s' |] eqn:Hstep; cbn [default from_option id].
  - pose proof (step_work s s' i Hstep). specialize (IH s'). lia.
  - apply IH.
Qed.

Lemma work_init (d : Registry.StaticTokensMarshaler) (calls : list Registry.call) :
  work (Registry.init d calls) = (4 * length calls)%nat.
Proof.
  unfold work, Registry.init. cbn [Registry.goroutines].
  induction calls as [| c calls IH]; [reflexivity |].
  cbn [fmap list_fmap sum_list_with length]. cbn [fmap] in IH. rewrite IH.
  destruct c; cbn; lia.
Qed.

(** X14: no call keeps the others waiting for ever. Under any schedule the
    goroutines move at most four times per call, and the moves made and the
    steps still to take always add up to four per call; so once
    [4 * length calls] moves have been made every call has returned. *)
Theorem registry_bounded_moves
    (d : Registry.StaticTokensMarshaler) (calls : list Registry.call)
    (schedule : list nat) :
  let s := Registry.run schedule (Registry.init d calls) in
  (moves schedule (Registry.init d calls) + work s)%nat =
    (4 * length calls)%nat /\
  (moves schedule (Registry.init d calls) = (4 * length calls)%nat ->
   forall i at_, Registry.goroutines s !! i = Some at_ -> returned at_ = true).
Proof.
  intros s.
  pose proof (moves_work schedule (Registry.init d calls)) as Hmw.
  fold s in Hmw. rewrite work_init in Hmw. split; [exact Hmw |].
  intros Hall i at_ Hi.
  assert (Hw : work s = 0%nat) by lia. clear - Hw Hi. unfold work in Hw.
  revert i Hi Hw. induction (Registry.goroutines s) as [| a gs IH];
    intros [| i] Hi Hw; try discriminate; cbn in Hi;
    cbn [fmap list_fmap sum_list_with] in Hw.
  - injection Hi as ->. destruct at_; cbn in Hw; try lia; reflexivity.
  - apply (IH i Hi). cbn [fmap]. lia.
Qed.


Lemma run_app (schedule1 schedule2 : list nat) (s : Registry.state) :
  Registry.run (schedule1 ++ schedule2) s =
  Registry.run schedule2 (Registry.run schedule1 s).
Proof.
  revert s. induction schedule1 as [| i schedule1 IH]; intros s; [reflexivity |].
  cbn [app Registry.run]. apply IH.
Qed.

(** The calls from some position on, run one after the other; the calls
    before it have returned. *)
Lemma run_sequential_from (before : list Registry.pc)
    (v : Registry.StaticTokensMarshaler) (calls : list Registry.call) :
  Registry.run
    (flat_map (fun i => [i; i; i; i]) (seq (length before) (length calls)))
    (Registry.mkState false v (before ++ (Registry.start <$> calls))) =
  Registry.mkState false (final v calls) (before ++ results v calls).
Proof.
  revert before v. induction calls as [| c calls IH]; intros before v;
    [reflexivity |].
  cbn [length seq flat_map fmap list_fmap results]. unfold final. cbn [foldl].
  rewrite run_app, (run_alone _ _ c); cbn [Registry.marshalerMutex
    Registry.goroutines Registry.staticTokensMarshaler];
    [| reflexivity | apply list_lookup_middle; reflexivity].
  rewrite insert_app_r_alt by lia. rewrite Nat.sub_diag. cbn [insert list_insert].
  rewrite (cons_middle (outcome c v)), app_assoc.
  replace (S (length before)) with (length (before ++ [outcome c v])%list)
    by (rewrite length_app; cbn; lia).
  rewrite (IH (before ++ [outcome c v])%list (effect c v)).
  rewrite <- app_assoc. reflexivity.
Qed.

(** X16: calls made one after the other, each returning before the next
    starts, act on the variable as assignments and reads:
    [GetStaticTokensMarshaler] returns the argument of the latest
    [SetStaticTokensMarshaler] before it, or the default marshaler if there
    is none; all calls return, the lock ends free and the variable holds the
    last marshaler set. *)
Theorem registry_sequential
    (d : Registry.StaticTokensMarshaler) (calls : list Registry.call) :
  Registry.run (sequential (length calls)) (Registry.init d calls) =
  Registry.mkState false (final d calls) (results d calls).
Proof. exact (run_sequential_from [] d calls). Qed.

(** ** The further properties at work on the reference instance *)


(** Data that decode to a resource with no name: the error of the check
    comes back with its class. *)
Lemma Unmarshal_passes_errors_on_witness :
  @teleportStaticTokensMarshaler.Unmarshal
    Reference.process Reference.fragments Reference.codec
    (Reference.encode Samples.unnamed) [] =
  Err (trace.Wrap (trace.BadParameter "missing parameter Name" [])) /\
  trace.IsBadParameter
    (trace.Wrap (trace.BadParameter "missing parameter Name" [])) =
  trace.IsBadParameter (trace.BadParameter "missing parameter Name" []).
Proof.
  assert (Hdata : Reference.encode Samples.unnamed <> [])
    by (vm_compute; discriminate).
  refine (proj2 (@Unmarshal_passes_errors_on
            Reference.process Reference.fragments Reference.codec
            (Reference.encode Samples.unnamed) [] Hdata)
            MarshalConfig.zero Samples.unnamed Samples.unnamed _ _ _ _).
  - reflexivity.
  - vm_compute. reflexivity.
  - vm_compute. reflexivity.
Defined.

(** The data carry no expiry; decoding them with the expiry option at 5
    yields expiry 5 and the resource ID of the data. *)
Lemma Unmarshal_Expires_override_witness :
  exists r,
    @teleportStaticTokensMarshaler.Unmarshal
      Reference.process Reference.fragments Reference.codec
      (Reference.encode Reference.sample) [WithExpires 5] = Ok r /\
    StaticTokensV2.Expiry r = 5 /\
    StaticTokensV2.GetResourceID r = 7.
Proof.
  refine (@Unmarshal_Expires_override
            Reference.process Reference.fragments Reference.codec
            (Reference.encode Reference.sample) [WithExpires 5]
            Samples.cfg_expires Reference.sample Reference.sample _ _ _ _ _).
  - vm_compute. discriminate.
  - reflexivity.
  - reflexivity.
  - vm_compute. reflexivity.
  - vm_compute. reflexivity.
Defined.

Lemma Unmarshal_keeps_decoded_payload_witness :
  exists cfg st,
    CollectOptions [WithResourceID 42] = Ok cfg /\
    @decodeWith Reference.fragments Reference.codec cfg
      (Reference.encode Reference.sample) = Ok st /\
    StaticTokensV2.GetKind (StaticTokensV2.SetResourceID Reference.sample 42) =
      StaticTokensV2.GetKind st /\
    StaticTokensV2.GetSubKind (StaticTokensV2.SetResourceID Reference.sample 42) =
      StaticTokensV2.GetSubKind st /\
    StaticTokensV2.GetVersion (StaticTokensV2.SetResourceID Reference.sample 42) =
      StaticTokensV2.GetVersion st /\
    StaticTokensV2.Spec (StaticTokensV2.SetResourceID Reference.sample 42) =
      StaticTokensV2.Spec st.
Proof.
  refine (@Unmarshal_keeps_decoded_payload
            Reference.process Reference.fragments Reference.codec
            (Reference.encode Reference.sample) [WithResourceID 42]
            (StaticTokensV2.SetResourceID Reference.sample 42) _).
  vm_compute. reflexivity.
Defined.

(** With [SkipValidation], a codec that has no validator and other schema
    fragments change nothing. *)
Lemma Unmarshal_SkipValidation_bypasses_schema_witness :
  @teleportStaticTokensMarshaler.Unmarshal
    Reference.process Reference.fragments Reference.codec
    (Reference.encode Reference.sample) [SkipValidation] =
  @teleportStaticTokensMarshaler.Unmarshal
    Reference.process Samples.otherFragments Samples.unvalidated
    (Reference.encode Reference.sample) [SkipValidation].
Proof.
  refine (@Unmarshal_SkipValidation_bypasses_schema Reference.process
            Reference.fragments Samples.otherFragments
            Reference.codec Samples.unvalidated
            (Reference.encode Reference.sample) [SkipValidation]
            Samples.cfg_fast _ _ _); reflexivity.
Defined.

Lemma Marshal_PreserveResourceID_witness :
  @teleportStaticTokensMarshaler.Marshal Reference.codec
    (PtrStaticTokensV2 1%positive) [PreserveResourceID] Reference.sample_heap =
  Some (@utils.FastMarshal Reference.codec Reference.sample,
        Reference.sample_heap).
Proof.
  refine (@Marshal_PreserveResourceID Reference.codec Reference.sample_heap
            1%positive Reference.sample [PreserveResourceID]
            Samples.cfg_preserve _ _ _).
  - vm_compute. reflexivity.
  - reflexivity.
  - reflexivity.
Defined.

(** The same resource under resource IDs 7 and 9, at different addresses of
    different heaps. *)
Lemma Marshal_hides_resource_ID_witness :
  fst <$> @teleportStaticTokensMarshaler.Marshal Reference.codec
            (PtrStaticTokensV2 1%positive) [] Reference.sample_heap =
  fst <$> @teleportStaticTokensMarshaler.Marshal Reference.codec
            (PtrStaticTokensV2 2%positive) []
            {[ 2%positive := StaticTokensV2.SetResourceID Reference.sample 9 ]}.
Proof.
  refine (@Marshal_hides_resource_ID Reference.codec
            Reference.sample_heap
            {[ 2%positive := StaticTokensV2.SetResourceID Reference.sample 9 ]}
            1%positive 2%positive
            Reference.sample (StaticTokensV2.SetResourceID Reference.sample 9)
            [] MarshalConfig.zero _ _ _ _ _).
  - vm_compute. reflexivity.
  - vm_compute. reflexivity.
  - reflexivity.
  - reflexivity.
  - reflexivity.
Defined.

Lemma Marshal_reads_PreserveResourceID_only_witness :
  @teleportStaticTokensMarshaler.Marshal Reference.codec
    (PtrStaticTokensV2 1%positive) [] Reference.sample_heap =
  @teleportStaticTokensMarshaler.Marshal Reference.codec
    (PtrStaticTokensV2 1%positive) [WithResourceID 42; SkipValidation; WithExpires 5]
    Reference.sample_heap.
Proof.
  refine (@Marshal_reads_PreserveResourceID_only Reference.codec
            Reference.sample_heap (PtrStaticTokensV2 1%positive)
            [] [WithResourceID 42; SkipValidation; WithExpires 5]
            MarshalConfig.zero (MarshalConfig.mk true false 42 5) _ _ _);
    reflexivity.
Defined.

Lemma Reference_lossless_sample_with_ID :
  @lossless_at Reference.fragments Reference.codec Reference.sample.
Proof.
  exists (Reference.encode Reference.sample).
  split; [reflexivity |]. split; [vm_compute; discriminate |].
  vm_compute. reflexivity.
Defined.

(** [sample] keeps resource ID 7 through the round trip. *)
Lemma Marshal_PreserveResourceID_roundtrip_witness :
  exists data,
    @teleportStaticTokensMarshaler.Marshal Reference.codec
      (PtrStaticTokensV2 1%positive) [PreserveResourceID] Reference.sample_heap =
      Some (Ok data, Reference.sample_heap) /\
    @teleportStaticTokensMarshaler.Unmarshal
      Reference.process Reference.fragments Reference.codec data [] =
      Ok Reference.sample.
Proof.
  refine (@Marshal_PreserveResourceID_roundtrip
            Reference.process Reference.fragments Reference.codec
            Reference.sample_heap 1%positive Reference.sample
            [PreserveResourceID] Samples.cfg_preserve
            _ _ Reference_lossless_sample_with_ID _ _).
  - vm_compute. reflexivity.
  - vm_compute. reflexivity.
  - reflexivity.
  - reflexivity.
Defined.

(** [sample] is stored without its resource ID and read back with it. *)
Lemma Marshal_Unmarshal_restores_ID_witness :
  exists data h',
    @teleportStaticTokensMarshaler.Marshal Reference.codec
      (PtrStaticTokensV2 1%positive) [] Reference.sample_heap =
      Some (Ok data, h') /\
    @teleportStaticTokensMarshaler.Unmarshal
      Reference.process Reference.fragments Reference.codec
      data [WithResourceID 7] = Ok Reference.sample.
Proof.
  refine (@Marshal_Unmarshal_restores_ID
            Reference.process Reference.fragments Reference.codec
            Reference.sample_heap 1%positive Reference.sample
            [WithResourceID 7] Samples.cfg_id7
            _ _ Reference_lossless_sample _ _ _ _).
  - vm_compute. reflexivity.
  - vm_compute. reflexivity.
  - reflexivity.
  - reflexivity.
  - reflexivity.
  - reflexivity.
Defined.

(** The second of two calls runs first, alone: it gets the default. *)
Lemma call_alone_witness :
  let d := Registry.mk 1 2 in
  let s := Registry.init d [Registry.SetStaticTokensMarshaler (Registry.mk 3 4);
                            Registry.GetStaticTokensMarshaler] in
  let s' := Registry.run [1; 1; 1; 1]%nat s in
  Registry.marshalerMutex s' = false /\
  Registry.staticTokensMarshaler s' = d /\
  Registry.goroutines s' !! 1%nat = Some (Registry.GetDone d) /\
  forall j, j <> 1%nat ->
    Registry.goroutines s' !! j = Registry.goroutines s !! j.
Proof.
  intros d s.
  exact (call_alone s 1%nat Registry.GetStaticTokensMarshaler eq_refl eq_refl).
Defined.

(** One call holds the lock, the other waits for it: the first can move. *)
Lemma registry_no_deadlock_witness :
  let s := Registry.run [0; 1]%nat
             (Registry.init (Registry.mk 1 2)
                [Registry.SetStaticTokensMarshaler (Registry.mk 3 4);
                 Registry.GetStaticTokensMarshaler]) in
  Registry.step 1%nat s = None /\
  exists j s', Registry.step j s = Some s'.
Proof.
  intros s. split; [reflexivity |].
  exact (registry_no_deadlock (Registry.mk 1 2)
           [Registry.SetStaticTokensMarshaler (Registry.mk 3 4);
            Registry.GetStaticTokensMarshaler]
           [0; 1]%nat 1%nat Registry.GetLock eq_refl eq_refl).
Defined.


(** The payload of [sample] comes back in the resource as it was given. *)
Lemma NewStaticTokens_keeps_spec_witness :
  StaticTokensV2.Spec (StaticTokensV2.SetResourceID Reference.sample 0) =
    StaticTokensV2.Spec Reference.sample /\
  StaticTokensV2.GetKind (StaticTokensV2.SetResourceID Reference.sample 0) =
    KindStaticTokens /\
  StaticTokensV2.GetVersion (StaticTokensV2.SetResourceID Reference.sample 0) =
    V2 /\
  StaticTokensV2.GetSubKind (StaticTokensV2.SetResourceID Reference.sample 0) =
    "".
Proof.
  refine (@NewStaticTokens_keeps_spec Reference.process
            (StaticTokensV2.Spec Reference.sample)
            (StaticTokensV2.SetResourceID Reference.sample 0) _).
  vm_compute. reflexivity.
Defined.
